(** * School management system: validation utilities and expected-student
      reconciliation

    Shallow embedding of
    - [src/lib/utils.ts]      ([ValidationUtils]),
    - [src/lib/database.ts]   ([StudentService], [ExpectedStudentService]),
    - [src/components/TrackingSystem.tsx] ([handleFileUpload]),
    together with the properties stated about them. *)

From Stdlib Require Import ZArith NArith Lia String Ascii.
From stdpp Require Import base list gmap.

Local Open Scope Z_scope.

(** ** JavaScript values used by the code *)

Module JS.

(** A JavaScript string is a sequence of UTF-16 code units. *)
Abbreviation jsstring := (list N).

(** An ASCII literal as a JavaScript string. *)
Definition lit (s : string) : jsstring :=
  (fun a => N_of_ascii a) <$> list_ascii_of_string s.

(** [\d] : the ASCII digits only. *)
Definition is_digit (c : N) : bool := ((48 <=? c) && (c <=? 57))%N.

(** [\s] : WhiteSpace and LineTerminator code points of ECMAScript. *)
Definition is_space (c : N) : bool :=
  (((9 <=? c) && (c <=? 13)) || (c =? 32) || (c =? 160) || (c =? 5760)
   || ((8192 <=? c) && (c <=? 8202)) || (c =? 8232) || (c =? 8233)
   || (c =? 8239) || (c =? 8287) || (c =? 12288) || (c =? 65279))%N.

(** Numbers.  Every number the modelled code computes is an integer far
    below 2^53 or NaN, so the doubles are represented by [Z] plus NaN. *)
Inductive number := NaN | Num (z : Z).

Definition add (a b : number) : number :=
  match a, b with Num x, Num y => Num (x + y) | _, _ => NaN end.
Definition sub (a b : number) : number :=
  match a, b with Num x, Num y => Num (x - y) | _, _ => NaN end.
Definition mul (a b : number) : number :=
  match a, b with Num x, Num y => Num (x * y) | _, _ => NaN end.
(** [a % b] : the remainder takes the sign of the dividend. *)
Definition rem (a b : number) : number :=
  match a, b with
  | Num x, Num y => if y =? 0 then NaN else Num (Z.rem x y)
  | _, _ => NaN
  end.
(** [a < b] and [a === b] : any comparison with NaN is false. *)
Definition lt (a b : number) : bool :=
  match a, b with Num x, Num y => x <? y | _, _ => false end.
Definition strict_eq (a b : number) : bool :=
  match a, b with Num x, Num y => x =? y | _, _ => false end.

(** [parseInt(s[i])] : [s[i]] is a one-unit string, or [undefined] when
    [i] is out of range.  A single digit parses to its value; a sign, a
    blank, any other unit and [undefined] give NaN. *)
Definition parseInt (c : option N) : number :=
  match c with
  | Some u => if is_digit u then Num (Z.of_N u - 48) else NaN
  | None => NaN
  end.

(** [s.replace(/[cls]/g, by)] for a one-unit character class. *)
Definition replace_class_g (cls : N -> bool) (by_ : jsstring) (s : jsstring)
  : jsstring :=
  flat_map (fun c => if cls c then by_ else [c]) s.

(** [s.trim()] *)
Fixpoint trim_start (s : jsstring) : jsstring :=
  match s with
  | c :: s' => if is_space c then trim_start s' else s
  | [] => []
  end.
Definition trim (s : jsstring) : jsstring :=
  rev (trim_start (rev (trim_start s))).

(** [s.replace(/\s+/g, ' ')] : every maximal run of blanks becomes one
    space.  [in_run] tells that the previous unit was a blank. *)
Fixpoint collapse_runs (in_run : bool) (s : jsstring) : jsstring :=
  match s with
  | [] => []
  | c :: s' =>
      if is_space c
      then (if in_run then collapse_runs true s'
            else 32%N :: collapse_runs true s')
      else c :: collapse_runs false s'
  end.

(** *** Regular expressions

    The fragment used by the validators: literals, [\d], sequence,
    alternation, [r?], [r{n}], one capture group and its back-reference
    [\1]. *)
Inductive regex :=
| Lit (c : N)
| Digit
| Seq (r1 r2 : regex)
| Alt (r1 r2 : regex)
| Opt (r : regex)
| Rep (n : nat) (r : regex)
| Group (r : regex)
| Backref.

(** Backtracking matcher: all the ways [r] matches a prefix of [s], each
    as the capture of group 1 afterwards and the unread rest, in the
    order a backtracking engine tries them. *)
Fixpoint rmatch (r : regex) (cap : option jsstring) (s : jsstring)
  : list (option jsstring * jsstring) :=
  match r with
  | Lit c =>
      match s with
      | x :: s' => if (x =? c)%N then [(cap, s')] else []
      | [] => []
      end
  | Digit =>
      match s with
      | x :: s' => if is_digit x then [(cap, s')] else []
      | [] => []
      end
  | Seq r1 r2 =>
      flat_map (fun st => rmatch r2 st.1 st.2) (rmatch r1 cap s)
  | Alt r1 r2 => rmatch r1 cap s ++ rmatch r2 cap s
  | Opt r1 => rmatch r1 cap s ++ [(cap, s)]
  | Rep n r1 =>
      (fix iter (n : nat) (cap : option jsstring) (s : jsstring) :=
         match n with
         | O => [(cap, s)]
         | S n' => flat_map (fun st => iter n' st.1 st.2) (rmatch r1 cap s)
         end) n cap s
  | Group r1 =>
      (fun st => (Some (take (length s - length st.2)%nat s), st.2))
        <$> rmatch r1 cap s
  | Backref =>
      match cap with
      | None => [(cap, s)]
      | Some w =>
          if bool_decide (take (length w) s = w)
          then [(cap, drop (length w) s)] else []
      end
  end.

(** [/^r$/.test(s)] : some match of [r] reads the whole string. *)
Definition test_anchored (r : regex) (s : jsstring) : bool :=
  existsb (fun st => bool_decide (st.2 = [])) (rmatch r None s).

(** [s.startsWith(prefix)] *)
Definition startsWith (s prefix : jsstring) : bool :=
  bool_decide (take (length prefix) s = prefix).

(** The property names every object inherits from [Object.prototype]:
    [obj[k]] is not [undefined] for these even when [obj] has no own
    property [k]. *)
Definition object_prototype_names : list jsstring :=
  [lit "constructor"; lit "__defineGetter__"; lit "__defineSetter__";
   lit "hasOwnProperty"; lit "__lookupGetter__"; lit "__lookupSetter__";
   lit "isPrototypeOf"; lit "propertyIsEnumerable"; lit "toString";
   lit "valueOf"; lit "__proto__"; lit "toLocaleString"].

End JS.

(** ** [ValidationUtils] (src/lib/utils.ts) *)

Module ValidationUtils.
Import JS.

(** [/^(\d)\1{9}$/] *)
Definition sameDigitRegex : regex := Seq (Group Digit) (Rep 9 Backref).

Definition validateNationalId (nationalId : jsstring) : bool :=
  if bool_decide (nationalId = []) || negb (length nationalId =? 10)%nat
  then false
  else if test_anchored sameDigitRegex nationalId then false
  else
    let sum :=
      fold_left
        (fun sum i =>
           add sum (mul (parseInt (nationalId !! i))
                        (sub (Num 10) (Num (Z.of_nat i)))))
        (seq 0 9) (Num 0) in
    let remainder := rem sum (Num 11) in
    let checkDigit := parseInt (nationalId !! 9%nat) in
    if lt remainder (Num 2)
    then strict_eq checkDigit remainder
    else strict_eq checkDigit (sub (Num 11) remainder).

(** [/^(\+98|0)?9\d{9}$/] *)
Definition phoneRegex : regex :=
  Seq (Opt (Group (Alt (Seq (Lit 43) (Seq (Lit 57) (Lit 56))) (Lit 48))))
      (Seq (Lit 57) (Rep 9 Digit)).

Definition validatePhoneNumber (phone : jsstring) : bool :=
  if bool_decide (phone = []) then true
  else test_anchored phoneRegex (replace_class_g is_space [] phone).

Definition sanitizeInput (input : jsstring) : jsstring :=
  collapse_runs false (trim input).

Definition validClasses : list jsstring :=
  [lit "701"; lit "702"; lit "703"; lit "801"; lit "802"; lit "803";
   lit "804"; lit "805"; lit "806"; lit "807"].

Definition isValidClass (className : jsstring) : bool :=
  bool_decide (className ∈ validClasses).

Definition formatPhoneNumber (phone : jsstring) : jsstring :=
  if bool_decide (phone = []) then []
  else
    let cleaned := replace_class_g (fun c => negb (is_digit c)) [] phone in
    if startsWith cleaned (lit "98") then 43%N :: cleaned
    else if startsWith cleaned (lit "0") then cleaned
    else if startsWith cleaned (lit "9") then 48%N :: cleaned
    else phone.

End ValidationUtils.

(** ** The stored records (src/lib/supabase.ts and the table definitions) *)

Module Student.
Import JS.
(** A row of table [students]. *)
Record t := mk {
  id : Z;
  first_name : jsstring;
  last_name : jsstring;
  father_name : jsstring;
  father_job : option jsstring;
  mother_job : option jsstring;
  national_id : jsstring;
  home_address : option jsstring;
  special_illness : option jsstring;
  father_phone : option jsstring;
  mother_phone : option jsstring;
  student_phone : option jsstring;
  class_name : jsstring;
  created_at : Z;
  updated_at : Z
}.
End Student.

Module ExpectedStudent.
Import JS.
(** A row of table [expected_students].  [upload_session_id] is a
    nullable column. *)
Record t := mk {
  id : Z;
  first_name : jsstring;
  last_name : jsstring;
  national_id : jsstring;
  class_name : jsstring;
  is_registered : bool;
  upload_session_id : option jsstring;
  created_at : Z
}.

(** [.update({ is_registered: b })] on one row. *)
Definition set_is_registered (b : bool) (r : t) : t :=
  mk (id r) (first_name r) (last_name r) (national_id r) (class_name r)
     b (upload_session_id r) (created_at r).
End ExpectedStudent.

Module NewExpectedStudent.
Import JS.
(** [Omit<ExpectedStudent, 'id' | 'created_at'>] : what the client sends
    for insertion. *)
Record t := mk {
  first_name : jsstring;
  last_name : jsstring;
  national_id : jsstring;
  class_name : jsstring;
  is_registered : option bool;
  upload_session_id : option jsstring
}.
End NewExpectedStudent.

Module NewStudent.
Import JS.
(** [Omit<Student, 'id' | 'created_at' | 'updated_at'>] : the form data and
    the argument of [createStudent]. *)
Record t := mk {
  first_name : jsstring;
  last_name : jsstring;
  father_name : jsstring;
  father_job : option jsstring;
  mother_job : option jsstring;
  national_id : jsstring;
  home_address : option jsstring;
  special_illness : option jsstring;
  father_phone : option jsstring;
  mother_phone : option jsstring;
  student_phone : option jsstring;
  class_name : jsstring
}.
End NewStudent.

(** ** The backend tables and the queries the services issue *)

Module Supabase.
Import JS.

Record database := mkdb {
  students : list Student.t;
  expected_students : list ExpectedStudent.t
}.

(** [.order(col, { ascending: false })] : rows by decreasing key.  The
    backend does not fix the order of rows with equal keys, nor the place
    of a row in the table after an update; the model lists such rows in
    table order.  Properties that compare the rows of two states are
    therefore stated up to the order of the rows. *)
Fixpoint insert_desc {A} (key : A -> Z) (x : A) (l : list A) : list A :=
  match l with
  | [] => [x]
  | y :: l' =>
      if key y <=? key x then x :: y :: l' else y :: insert_desc key x l'
  end.
Definition order_desc {A} (key : A -> Z) (l : list A) : list A :=
  foldr (insert_desc key) [] l.

(** [.from('expected_students').update({ is_registered: b }).eq('id', i)] *)
Definition update_is_registered (b : bool) (i : Z)
    (rows : list ExpectedStudent.t) : list ExpectedStudent.t :=
  (fun r => if bool_decide (ExpectedStudent.id r = i)
            then ExpectedStudent.set_is_registered b r else r) <$> rows.

(** [.from('expected_students').delete().eq('upload_session_id', s)] *)
Definition delete_session (s : jsstring) (rows : list ExpectedStudent.t)
  : list ExpectedStudent.t :=
  filter (fun r => ExpectedStudent.upload_session_id r <> Some s) rows.

(** What the backend decides when it receives an insert: whether it
    accepts the rows (constraints, policies), the first identifier of the
    [SERIAL] column and the value of [NOW()]. *)
Record insert_response := mkresp {
  accepted : bool;
  first_id : Z;
  now : Z
}.

(** The stored form of an inserted row: [is_registered] defaults to
    false, [id] and [created_at] are given by the backend. *)
Definition stored (now i : Z) (f : NewExpectedStudent.t) : ExpectedStudent.t :=
  ExpectedStudent.mk i
    (NewExpectedStudent.first_name f) (NewExpectedStudent.last_name f)
    (NewExpectedStudent.national_id f) (NewExpectedStudent.class_name f)
    (default false (NewExpectedStudent.is_registered f))
    (NewExpectedStudent.upload_session_id f) now.

Fixpoint assign_ids (now i : Z) (fs : list NewExpectedStudent.t)
  : list ExpectedStudent.t :=
  match fs with
  | [] => []
  | f :: fs' => stored now i f :: assign_ids now (i + 1) fs'
  end.

(** [.from('expected_students').insert(rows).select()] : the new table
    and the inserted rows, or [None] for the error. *)
Definition insert_expected (resp : insert_response)
    (fs : list NewExpectedStudent.t) (rows : list ExpectedStudent.t)
  : option (list ExpectedStudent.t * list ExpectedStudent.t) :=
  if accepted resp
  then let new := assign_ids (now resp) (first_id resp) fs in
       Some (rows ++ new, new)
  else None.

(** The stored form of an inserted student: [id] and [created_at] are given
    by the backend, [updated_at] is sent by the client. *)
Definition stored_student (now i updated_at : Z) (f : NewStudent.t) : Student.t :=
  Student.mk i
    (NewStudent.first_name f) (NewStudent.last_name f) (NewStudent.father_name f)
    (NewStudent.father_job f) (NewStudent.mother_job f) (NewStudent.national_id f)
    (NewStudent.home_address f) (NewStudent.special_illness f)
    (NewStudent.father_phone f) (NewStudent.mother_phone f)
    (NewStudent.student_phone f) (NewStudent.class_name f) now updated_at.

(** [.from('students').insert([row]).select().maybeSingle()] : the new
    table and the inserted row, or [None] for the error.  Column
    [national_id] of table [students] is [UNIQUE]: a row whose identity
    number is stored already is refused, whatever else the backend
    decides. *)
Definition insert_student (resp : insert_response) (updated_at : Z)
    (f : NewStudent.t) (rows : list Student.t)
  : option (list Student.t * Student.t) :=
  if accepted resp
     && bool_decide (NewStudent.national_id f ∉ (Student.national_id <$> rows))
  then let new := stored_student (now resp) (first_id resp) updated_at f in
       Some (rows ++ [new], new)
  else None.

End Supabase.

(** ** [StudentService] and [ExpectedStudentService] (src/lib/database.ts) *)

Module StudentService.
Import Supabase.

Definition getAllStudents (db : database) : list Student.t :=
  order_desc Student.created_at (students db).


(** [updated_at] is the client's [new Date()]; [None] is the thrown insert
    error. *)
Definition createStudent (student : NewStudent.t) (updated_at : Z)
    (resp : insert_response) (db : database)
  : database * option Student.t :=
  match insert_student resp updated_at student (students db) with
  | Some (rows, data) => (mkdb rows (expected_students db), Some data)
  | None => (db, None)
  end.

Definition getStudentsByClass (className : JS.jsstring) (db : database)
  : list Student.t :=
  order_desc Student.created_at
    (filter (fun s => Student.class_name s = className) (students db)).

(** [.select('id').eq('national_id', nationalId).maybeSingle()] gives the
    row when exactly one matches, [null] when none does, and [null] with
    the error [PGRST116] when several do; that error is not rethrown. *)
Definition checkNationalIdExists (nationalId : JS.jsstring) (db : database)
  : bool :=
  match filter (fun s => Student.national_id s = nationalId) (students db) with
  | [_] => true
  | _ => false
  end.

(** A value of the [stats] object: a count, or the text that [+ 1] makes
    out of an inherited property. *)
Inductive stat := Count (n : nat) | Text.

(** [stats[k] = (stats[k] || 0) + 1].  When [k] is no own property but an
    inherited one, [stats[k]] is a function or an object, the sum is a
    text, and the assignment defines [k], except for [__proto__] whose
    setter ignores a text. *)
Definition countClass (stats : gmap JS.jsstring stat) (k : JS.jsstring)
  : gmap JS.jsstring stat :=
  match stats !! k with
  | Some (Count n) => <[k := Count (n + 1)]> stats
  | Some Text => <[k := Text]> stats
  | None =>
      if bool_decide (k ∈ JS.object_prototype_names)
      then (if bool_decide (k = JS.lit "__proto__") then stats
            else <[k := Text]> stats)
      else <[k := Count 1]> stats
  end.

Definition getClassStatistics (db : database) : gmap JS.jsstring stat :=
  fold_left (fun stats student => countClass stats (Student.class_name student))
            (students db) ∅.
End StudentService.

Module ExpectedStudentService.
Import JS Supabase.

(** The row sent for a student: [{ ...student, upload_session_id }]. *)
Definition with_session (sessionId : jsstring) (student : NewExpectedStudent.t)
  : NewExpectedStudent.t :=
  NewExpectedStudent.mk
    (NewExpectedStudent.first_name student)
    (NewExpectedStudent.last_name student)
    (NewExpectedStudent.national_id student)
    (NewExpectedStudent.class_name student)
    (NewExpectedStudent.is_registered student)
    (Some sessionId).

(** The table after the [delete] that starts an upload. *)
Definition clearPreviousData (sessionId : jsstring) (db : database)
  : database :=
  mkdb (students db) (delete_session sessionId (expected_students db)).

(** Returns the database afterwards and the inserted rows; [None] is the
    thrown insert error. *)
Definition uploadExpectedStudents (students_ : list NewExpectedStudent.t)
    (sessionId : jsstring) (resp : insert_response) (db : database)
  : database * option (list ExpectedStudent.t) :=
  let db1 := clearPreviousData sessionId db in
  let studentsWithSession := with_session sessionId <$> students_ in
  match insert_expected resp studentsWithSession (expected_students db1) with
  | Some (rows, data) => (mkdb (students db1) rows, Some data)
  | None => (db1, None)
  end.

(** [sessionId?: string] : [None] is an omitted argument.  The filter is
    added only when [sessionId] is truthy. *)
Definition getExpectedStudents (sessionId : option jsstring) (db : database)
  : list ExpectedStudent.t :=
  let query := expected_students db in
  let query :=
    match sessionId with
    | Some s =>
        if bool_decide (s = []) then query
        else filter (fun r => ExpectedStudent.upload_session_id r = Some s) query
    | None => query
    end in
  order_desc ExpectedStudent.created_at query.

(** [new Set(registeredStudents.map(s => s.national_id))] *)
Definition registeredNationalIds (db : database) : gset jsstring :=
  list_to_set (Student.national_id <$> StudentService.getAllStudents db).

Definition getUnregisteredStudents (sessionId : jsstring) (db : database)
  : list ExpectedStudent.t :=
  let expectedStudents := getExpectedStudents (Some sessionId) db in
  let registered := registeredNationalIds db in
  filter (fun expected => ExpectedStudent.national_id expected ∉ registered)
         expectedStudents.

(** The loop updates the row of each expected student in turn; the two
    lists are read once, before the loop. *)
Definition updateRegistrationStatus (sessionId : jsstring) (db : database)
  : database :=
  let expectedStudents := getExpectedStudents (Some sessionId) db in
  let registered := registeredNationalIds db in
  fold_left
    (fun db expected =>
       let isRegistered :=
         bool_decide (ExpectedStudent.national_id expected ∈ registered) in
       mkdb (students db)
            (update_is_registered isRegistered (ExpectedStudent.id expected)
               (expected_students db)))
    expectedStudents db.

End ExpectedStudentService.

(** ** [TrackingSystem.handleFileUpload] (src/components/TrackingSystem.tsx) *)

Module TrackingSystem.
Import JS Supabase.

(** A cell of a parsed row.  The code observes a value that is not a
    string (a number, a boolean, a date) only through its truthiness and
    through [String(v)]; such a value has no [trim] method. *)
Inductive cell :=
| Undefined
| Str (s : jsstring)
| Other (truthy : bool) (text : jsstring).

Definition truthy (v : cell) : bool :=
  match v with
  | Undefined => false
  | Str s => negb (bool_decide (s = []))
  | Other t _ => t
  end.

(** [String(v)] *)
Definition String_ (v : cell) : jsstring :=
  match v with
  | Undefined => lit "undefined"
  | Str s => s
  | Other _ text => text
  end.

(** [a || b] *)
Definition or_else (a b : cell) : cell := if truthy a then a else b.

(** A parsed row: an object from column header to cell. *)
Definition get (row : gmap jsstring cell) (key : jsstring) : cell :=
  default Undefined (row !! key).

(** The accepted column headers, Persian ones as code units. *)
Definition k_nam : jsstring := [1606; 1575; 1605]%N.
Definition k_nam_kuchak : jsstring :=
  [1606; 1575; 1605; 32; 1705; 1608; 1670; 1705]%N.
Definition k_nam_khanevadegi : jsstring :=
  [1606; 1575; 1605; 32; 1582; 1575; 1606; 1608; 1575; 1583; 1711; 1740]%N.
Definition k_nam_famil : jsstring :=
  [1606; 1575; 1605; 32; 1601; 1575; 1605; 1740; 1604]%N.
Definition k_kod_melli : jsstring := [1705; 1583; 32; 1605; 1604; 1740]%N.
Definition k_shenase_melli : jsstring :=
  [1588; 1606; 1575; 1587; 1607; 32; 1605; 1604; 1740]%N.
Definition k_kelas : jsstring := [1705; 1604; 1575; 1587]%N.
Definition k_kelas_tahsili : jsstring :=
  [1705; 1604; 1575; 1587; 32; 1578; 1581; 1589; 1740; 1604; 1740]%N.

Definition firstName (row : gmap jsstring cell) : cell :=
  or_else (get row k_nam)
    (or_else (get row (lit "first_name"))
       (or_else (get row (lit "FirstName"))
          (or_else (get row k_nam_kuchak) (Str [])))).
Definition lastName (row : gmap jsstring cell) : cell :=
  or_else (get row k_nam_khanevadegi)
    (or_else (get row (lit "last_name"))
       (or_else (get row (lit "LastName"))
          (or_else (get row k_nam_famil) (Str [])))).
Definition nationalId (row : gmap jsstring cell) : jsstring :=
  replace_class_g (fun c => negb (is_digit c)) []
    (String_
       (or_else (get row k_kod_melli)
          (or_else (get row (lit "national_id"))
             (or_else (get row (lit "NationalId"))
                (or_else (get row k_shenase_melli) (Str [])))))).
Definition className (row : gmap jsstring cell) : jsstring :=
  String_
    (or_else (get row k_kelas)
       (or_else (get row (lit "class"))
          (or_else (get row (lit "Class"))
             (or_else (get row k_kelas_tahsili) (Str []))))).

(** The four messages pushed on [errors]; each is prefixed in the source
    by the row number [index + 2]. *)
Inductive row_error_kind :=
| RequiredFieldsIncomplete   (* "required fields are incomplete" *)
| NationalIdNotValid         (* "national id is not valid" *)
| ClassNotValid              (* "class is not valid" *)
| DataProcessingError.       (* "error while processing the data" (catch) *)

(** [ValidationUtils.sanitizeInput(v)] on a cell: [v.trim] is not a
    function unless [v] is a string, and the call throws. *)
Definition sanitize_cell (v : cell) : option jsstring :=
  match v with
  | Str s => Some (ValidationUtils.sanitizeInput s)
  | _ => None
  end.

(** The body of the [forEach] callback: the pushed student, or the kind
    of the pushed error. *)
Definition processRow (row : gmap jsstring cell)
  : row_error_kind + NewExpectedStudent.t :=
  let firstName := firstName row in
  let lastName := lastName row in
  let nationalId := nationalId row in
  let className := className row in
  if negb (truthy firstName) || negb (truthy lastName)
     || bool_decide (nationalId = []) || bool_decide (className = [])
  then inl RequiredFieldsIncomplete
  else if negb (length nationalId =? 10)%nat
          || negb (ValidationUtils.validateNationalId nationalId)
  then inl NationalIdNotValid
  else if negb (ValidationUtils.isValidClass className)
  then inl ClassNotValid
  else
    match sanitize_cell firstName, sanitize_cell lastName with
    | Some first_name, Some last_name =>
        inr (NewExpectedStudent.mk first_name last_name nationalId className
               (Some false) None)
    | _, _ => inl DataProcessingError
    end.

(** [excelData.forEach((row, index) => ...)] over the two arrays
    [expectedStudents] and [errors]. *)
Fixpoint forEachRow (rows : list (gmap jsstring cell)) (index : nat)
    (expectedStudents : list NewExpectedStudent.t)
    (errors : list (nat * row_error_kind))
  : list NewExpectedStudent.t * list (nat * row_error_kind) :=
  match rows with
  | [] => (expectedStudents, errors)
  | row :: rest =>
      match processRow row with
      | inr student =>
          forEachRow rest (S index) (expectedStudents ++ [student]) errors
      | inl kind =>
          forEachRow rest (S index) expectedStudents
                     (errors ++ [(index + 2, kind)%nat])
      end
  end.

(** The error shown by the outer [catch]. *)
Inductive upload_error :=
| FileIsEmpty
| NoValidRecordFound (first_errors : list (nat * row_error_kind))
| InsertError.

Inductive upload_outcome :=
| Failed (e : upload_error)
| Uploaded (uploadedData : list ExpectedStudent.t) (sessionId : jsstring)
           (uploaded errors : nat).

(** [handleFileUpload] from the parsed sheet on.  [sessionId] is the
    value of [UIUtils.generateSessionId()]. *)
Definition handleFileUpload (excelData : list (gmap jsstring cell))
    (sessionId : jsstring) (resp : insert_response) (db : database)
  : database * upload_outcome :=
  if bool_decide (excelData = []) then (db, Failed FileIsEmpty)
  else
    let '(expectedStudents, errors) := forEachRow excelData 0 [] [] in
    if (0 <? length errors)%nat && (length expectedStudents =? 0)%nat
    then (db, Failed (NoValidRecordFound (take 5 errors)))
    else
      match ExpectedStudentService.uploadExpectedStudents
              expectedStudents sessionId resp db with
      | (db', Some uploadedData) =>
          (db', Uploaded uploadedData sessionId
                         (length expectedStudents) (length errors))
      | (db', None) => (db', Failed InsertError)
      end.


(** The result of [handleCompareData]: the error toast shown without a
    session, or the list put on display. *)
Inductive compare_outcome :=
| UploadFirst
| Compared (unregistered : list ExpectedStudent.t).

(** [currentSessionId] is [string | null]. *)
Definition handleCompareData (currentSessionId : option jsstring)
    (db : database) : database * compare_outcome :=
  match currentSessionId with
  | None => (db, UploadFirst)
  | Some sessionId =>
      if bool_decide (sessionId = []) then (db, UploadFirst)
      else
        let db' := ExpectedStudentService.updateRegistrationStatus sessionId db in
        (db', Compared (ExpectedStudentService.getUnregisteredStudents sessionId db'))
  end.

End TrackingSystem.

(** ** [StudentForm] (the registration form) *)

Module StudentForm.
Import JS Supabase.

(** The three kinds of message [validateForm] stores under a field. *)
Inductive form_error :=
| Required           (* "... is required" *)
| NotValid           (* "... is not valid" *)
| AlreadyRegistered. (* "this national id is already registered" *)

(** [v && !ValidationUtils.validatePhoneNumber(v)] for an optional field. *)
Definition phone_rejected (v : option jsstring) : bool :=
  match v with
  | Some phone =>
      negb (bool_decide (phone = []))
      && negb (ValidationUtils.validatePhoneNumber phone)
  | None => false
  end.

(** The object [newErrors] and the returned boolean.  [queryAnswers] tells
    whether the backend answers the existence query; when it does not,
    [checkNationalIdExists] throws, the [catch] logs the error and no
    message is added. *)
Definition validateForm (formData : NewStudent.t) (queryAnswers : bool)
    (db : database) : gmap jsstring form_error * bool :=
  let newErrors : gmap jsstring form_error := ∅ in
  let newErrors :=
    if bool_decide (trim (NewStudent.first_name formData) = [])
    then <[lit "first_name" := Required]> newErrors else newErrors in
  let newErrors :=
    if bool_decide (trim (NewStudent.last_name formData) = [])
    then <[lit "last_name" := Required]> newErrors else newErrors in
  let newErrors :=
    if bool_decide (trim (NewStudent.father_name formData) = [])
    then <[lit "father_name" := Required]> newErrors else newErrors in
  let newErrors :=
    if bool_decide (trim (NewStudent.national_id formData) = [])
    then <[lit "national_id" := Required]> newErrors
    else if negb (ValidationUtils.validateNationalId
                    (NewStudent.national_id formData))
    then <[lit "national_id" := NotValid]> newErrors
    else newErrors in
  let newErrors :=
    if bool_decide (NewStudent.class_name formData = [])
    then <[lit "class_name" := Required]> newErrors else newErrors in
  let newErrors :=
    if phone_rejected (NewStudent.father_phone formData)
    then <[lit "father_phone" := NotValid]> newErrors else newErrors in
  let newErrors :=
    if phone_rejected (NewStudent.mother_phone formData)
    then <[lit "mother_phone" := NotValid]> newErrors else newErrors in
  let newErrors :=
    if phone_rejected (NewStudent.student_phone formData)
    then <[lit "student_phone" := NotValid]> newErrors else newErrors in
  let newErrors :=
    if bool_decide (newErrors !! lit "national_id" = None)
    then (if queryAnswers
          then (if StudentService.checkNationalIdExists
                     (NewStudent.national_id formData) db
                then <[lit "national_id" := AlreadyRegistered]> newErrors
                else newErrors)
          else newErrors)
    else newErrors in
  (newErrors, bool_decide (newErrors = ∅)).

(** [f(v || '')] for an optional field. *)
Definition or_empty (v : option jsstring) : jsstring := default [] v.

Definition sanitizedData (formData : NewStudent.t) : NewStudent.t :=
  NewStudent.mk
    (ValidationUtils.sanitizeInput (NewStudent.first_name formData))
    (ValidationUtils.sanitizeInput (NewStudent.last_name formData))
    (ValidationUtils.sanitizeInput (NewStudent.father_name formData))
    (Some (ValidationUtils.sanitizeInput (or_empty (NewStudent.father_job formData))))
    (Some (ValidationUtils.sanitizeInput (or_empty (NewStudent.mother_job formData))))
    (NewStudent.national_id formData)
    (Some (ValidationUtils.sanitizeInput (or_empty (NewStudent.home_address formData))))
    (Some (ValidationUtils.sanitizeInput (or_empty (NewStudent.special_illness formData))))
    (Some (ValidationUtils.formatPhoneNumber (or_empty (NewStudent.father_phone formData))))
    (Some (ValidationUtils.formatPhoneNumber (or_empty (NewStudent.mother_phone formData))))
    (Some (ValidationUtils.formatPhoneNumber (or_empty (NewStudent.student_phone formData))))
    (NewStudent.class_name formData).

Inductive submit_outcome :=
| FormErrors (errors : gmap jsstring form_error)
| Registered (student : Student.t)
| RegistrationFailed.

Definition handleSubmit (formData : NewStudent.t) (queryAnswers : bool)
    (updated_at : Z) (resp : insert_response) (db : database)
  : database * submit_outcome :=
  let '(errors, isValid) := validateForm formData queryAnswers db in
  if negb isValid then (db, FormErrors errors)
  else
    match StudentService.createStudent (sanitizedData formData) updated_at
            resp db with
    | (db', Some student) => (db', Registered student)
    | (db', None) => (db', RegistrationFailed)
    end.

End StudentForm.

(** ** [AuthContext] (src/contexts/AuthContext.tsx) *)

Module AuthContext.
Import JS.

Definition ADMIN_username : jsstring := lit "admin".
Definition ADMIN_password : jsstring := lit "iran@1404".

(** The item of [localStorage] under [AUTH_STORAGE_KEY], by what
    [JSON.parse] and the destructuring make of it: the empty text, an
    object with a boolean [isAuth], a text [username] and an integer
    [timestamp] (what [login] writes), or a text on which they throw.
    Items of another shape are not represented. *)
Inductive item :=
| EmptyText
| Session (isAuth : bool) (username : jsstring) (timestamp : Z)
| Unparsable.

Record state := mkstate {
  storage : option item;
  isAuthenticated : bool;
  user : option jsstring;
  isLoading : bool
}.

(** The state of a freshly mounted provider over a given storage. *)
Definition mount (storage : option item) : state :=
  mkstate storage false None true.

Definition sessionDuration : Z := 24 * 60 * 60 * 1000.

(** [now] is [Date.now()]. *)
Definition checkAuthStatus (now : Z) (st : state) : state :=
  match storage st with
  | None | Some EmptyText =>
      mkstate (storage st) (isAuthenticated st) (user st) false
  | Some (Session isAuth username timestamp) =>
      if isAuth && negb (bool_decide (username = []))
         && (now - timestamp <? sessionDuration)
      then mkstate (storage st) true (Some username) false
      else mkstate None false None false
  | Some Unparsable => mkstate None false None false
  end.

(** [storageWritable] tells whether [localStorage.setItem] succeeds; when
    it throws (quota exceeded, storage disabled) the [catch] returns false
    before any state is set. *)
Definition login (username password : jsstring) (now : Z)
    (storageWritable : bool) (st : state) : state * bool :=
  if bool_decide (username = ADMIN_username)
     && bool_decide (password = ADMIN_password)
  then (if storageWritable
        then (mkstate (Some (Session true username now)) true (Some username)
                      (isLoading st), true)
        else (st, false))
  else (st, false).

Definition logout (st : state) : state :=
  mkstate None false None (isLoading st).

End AuthContext.

(** ** Reference definitions of the properties *)

Module Reference.
Import JS.

(** [/^\d{10}$/] *)
Definition tenDigitRegex : regex := Rep 10 Digit.

(** The value of the digit at position [i]. *)
Definition digit_at (s : jsstring) (i : nat) : Z := Z.of_N (nth i s 0%N) - 48.

(** [Σ_{i=0..8} digit[i] * (10 − i)] *)
Definition weighted_sum (s : jsstring) : Z :=
  foldr Z.add 0 ((fun i => digit_at s i * (10 - Z.of_nat i)) <$> seq 0 9).

Definition expected_check_digit (s : jsstring) : Z :=
  let remainder := weighted_sum s mod 11 in
  if remainder <? 2 then remainder else 11 - remainder.

Definition ten_digits (s : jsstring) : Prop :=
  length s = 10%nat /\ Forall (fun c => is_digit c = true) s.

Definition all_identical (s : jsstring) : Prop :=
  exists c, s = replicate (length s) c.

(** Removing the space character U+0020 only. *)
Definition remove_spaces (s : jsstring) : jsstring :=
  filter (fun c => c <> 32%N) s.

(** Removing every unit of the class [\s]. *)
Definition remove_whitespace (s : jsstring) : jsstring :=
  filter (fun c => is_space c = false) s.

(** An optional prefix [+98] or [0], then [9], then nine digits. *)
Definition iranian_mobile (t : jsstring) : Prop :=
  exists prefix rest,
    t = prefix ++ 57%N :: rest
    /\ (prefix = [] \/ prefix = lit "+98" \/ prefix = lit "0")
    /\ length rest = 9%nat
    /\ Forall (fun c => is_digit c = true) rest.

(** "0912<TAB>3456789" *)
Definition phone_with_tab : jsstring := lit "0912" ++ 9%N :: lit "3456789".

(** *** Reconciliation *)

(** The identity number of [e] occurs among the registered students. *)
Definition registered_in (db : Supabase.database) (e : ExpectedStudent.t)
  : Prop :=
  ExpectedStudent.national_id e
    ∈ (Student.national_id <$> Supabase.students db).

#[global] Instance registered_in_dec db e : Decision (registered_in db e).
Proof. unfold registered_in. apply _. Defined.

(** The update calls issued by the loop of [updateRegistrationStatus], in
    order: the row identifier and the flag it is given. *)
Definition registrationUpdates (sessionId : jsstring) (db : Supabase.database)
  : list (Z * bool) :=
  (fun expected =>
     (ExpectedStudent.id expected,
      bool_decide (ExpectedStudent.national_id expected
                     ∈ ExpectedStudentService.registeredNationalIds db)))
    <$> ExpectedStudentService.getExpectedStudents (Some sessionId) db.

(** Performing a sequence of update calls on the table. *)
Definition applyUpdates (updates : list (Z * bool))
    (rows : list ExpectedStudent.t) : list ExpectedStudent.t :=
  fold_left (fun rows u => Supabase.update_is_registered u.2 u.1 rows)
            updates rows.

(** [r'] is [r] up to the registration flag. *)
Definition same_but_flag (r r' : ExpectedStudent.t) : Prop :=
  ExpectedStudent.id r' = ExpectedStudent.id r
  /\ ExpectedStudent.first_name r' = ExpectedStudent.first_name r
  /\ ExpectedStudent.last_name r' = ExpectedStudent.last_name r
  /\ ExpectedStudent.national_id r' = ExpectedStudent.national_id r
  /\ ExpectedStudent.class_name r' = ExpectedStudent.class_name r
  /\ ExpectedStudent.upload_session_id r' = ExpectedStudent.upload_session_id r
  /\ ExpectedStudent.created_at r' = ExpectedStudent.created_at r.

(** What a sequence of update calls does to one row. *)
Definition apply_row (updates : list (Z * bool)) (r : ExpectedStudent.t)
  : ExpectedStudent.t :=
  fold_left
    (fun r u => if bool_decide (ExpectedStudent.id r = u.1)
                then ExpectedStudent.set_is_registered u.2 r else r)
    updates r.

(** The flag of the last update call on identifier [i], if there is one. *)
Fixpoint last_flag (updates : list (Z * bool)) (i : Z) : option bool :=
  match updates with
  | [] => None
  | u :: us =>
      match last_flag us i with
      | Some b => Some b
      | None => if bool_decide (i = u.1) then Some u.2 else None
      end
  end.

(** *** Sample data: one registered student, a batch "B1" of two expected
    students, and one expected student of batch "B2"; identifiers and
    identity numbers are distinct within each table. *)

Definition sample_student (i : Z) (national_id class_name : jsstring) (t : Z)
  : Student.t :=
  Student.mk i (lit "Sara") (lit "Ahmadi") (lit "Reza") None None national_id
             None None None None None class_name t t.

Definition sample_db : Supabase.database :=
  Supabase.mkdb
    [sample_student 1 (lit "0010010011") (lit "701") 100]
    [ExpectedStudent.mk 1 (lit "Sara") (lit "Ahmadi") (lit "0010010011")
       (lit "701") false (Some (lit "B1")) 210;
     ExpectedStudent.mk 2 (lit "Mina") (lit "Karimi") (lit "0020020022")
       (lit "702") false (Some (lit "B1")) 200;
     ExpectedStudent.mk 3 (lit "Zahra") (lit "Moradi") (lit "0030030033")
       (lit "701") false (Some (lit "B2")) 300].

Definition sample_upload : list NewExpectedStudent.t :=
  [NewExpectedStudent.mk (lit "Neda") (lit "Sadeghi") (lit "0499370899")
     (lit "801") (Some false) None].

Definition sample_response : Supabase.insert_response :=
  Supabase.mkresp true 10 400.

(** *** Ingestion of a parsed sheet *)

(** A required field is missing from the row. *)
Definition missing_required (row : gmap jsstring TrackingSystem.cell) : Prop :=
  TrackingSystem.truthy (TrackingSystem.firstName row) = false
  \/ TrackingSystem.truthy (TrackingSystem.lastName row) = false
  \/ TrackingSystem.nationalId row = []
  \/ TrackingSystem.className row = [].

Definition invalid_identity (row : gmap jsstring TrackingSystem.cell) : Prop :=
  ValidationUtils.validateNationalId (TrackingSystem.nationalId row) = false.

Definition invalid_class (row : gmap jsstring TrackingSystem.cell) : Prop :=
  TrackingSystem.className row ∉ ValidationUtils.validClasses.

(** The two name cells hold text. *)
Definition text_names (row : gmap jsstring TrackingSystem.cell) : Prop :=
  exists first last,
    TrackingSystem.firstName row = TrackingSystem.Str first
    /\ TrackingSystem.lastName row = TrackingSystem.Str last.

(** The students of the rows that are kept, in row order. *)
Definition kept_rows (rows : list (gmap jsstring TrackingSystem.cell))
  : list NewExpectedStudent.t :=
  omap (fun row => match TrackingSystem.processRow row with
                   | inr student => Some student
                   | inl _ => None
                   end) rows.

(** The errors of the rows that are skipped, in row order; the row at
    [index] is reported as row [index + 2]. *)
Fixpoint rejected_rows (index : nat) (rows : list (gmap jsstring TrackingSystem.cell))
  : list (nat * TrackingSystem.row_error_kind) :=
  match rows with
  | [] => []
  | row :: rest =>
      match TrackingSystem.processRow row with
      | inl kind => (index + 2, kind)%nat :: rejected_rows (S index) rest
      | inr _ => rejected_rows (S index) rest
      end
  end.

(** A sheet row with text in the four columns. *)
Definition text_row (first last national_id class_name : jsstring)
  : gmap jsstring TrackingSystem.cell :=
  {[ TrackingSystem.k_nam := TrackingSystem.Str first;
     TrackingSystem.k_nam_khanevadegi := TrackingSystem.Str last;
     TrackingSystem.k_kod_melli := TrackingSystem.Str national_id;
     TrackingSystem.k_kelas := TrackingSystem.Str class_name ]}.

(** A sheet whose first row is complete and whose second row has a wrong
    check digit. *)
Definition sample_sheet : list (gmap jsstring TrackingSystem.cell) :=
  [text_row (lit "Neda") (lit "Sadeghi") (lit "0499370899") (lit "801");
   text_row (lit "Mina") (lit "Karimi") (lit "0499370898") (lit "801")].

(** A row whose first-name cell holds the number 123. *)
Definition numeric_name_row : gmap jsstring TrackingSystem.cell :=
  <[ TrackingSystem.k_nam := TrackingSystem.Other true (lit "123") ]>
    (text_row [] (lit "Sadeghi") (lit "0499370899") (lit "801")).

(** *** Sample registration form *)

Definition sample_form : NewStudent.t :=
  NewStudent.mk (lit "  Neda ") (lit "Sadeghi") (lit "Ali  Reza") None None
    (lit "0499370899") None None (Some (lit "0912 345 6789")) (Some []) None
    (lit "801").

(** A table with one registered student whose identity number is valid. *)
Definition registered_db : Supabase.database :=
  Supabase.mkdb [sample_student 1 (lit "0010010017") (lit "701") 100] [].

(** A form with the identity number of that student. *)
Definition resubmitted_form : NewStudent.t :=
  NewStudent.mk (lit "Sara") (lit "Ahmadi") (lit "Reza") None None
    (lit "0010010017") None None None None None (lit "701").

End Reference.

(** ** Properties of the regular expressions *)

Import JS ValidationUtils Reference.

Lemma rmatch_Rep_0 r cap s : rmatch (Rep 0 r) cap s = [(cap, s)].
Proof. reflexivity. Qed.

Lemma rmatch_Rep_S n r cap s :
  rmatch (Rep (S n) r) cap s
  = flat_map (fun st => rmatch (Rep n r) st.1 st.2) (rmatch r cap s).
Proof. reflexivity. Qed.

Lemma rmatch_Rep_Digit n cap s :
  rmatch (Rep n Digit) cap s
  = if (n <=? length s)%nat && forallb is_digit (take n s)
    then [(cap, drop n s)] else [].
Proof.
  revert s; induction n as [|n IH]; intros s.
  - rewrite rmatch_Rep_0. reflexivity.
  - rewrite rmatch_Rep_S. destruct s as [|x s]; [reflexivity|].
    change (rmatch Digit cap (x :: s))
      with (if is_digit x then [(cap, s)] else []).
    destruct (is_digit x) eqn:Hx.
    + cbn [flat_map fst snd]. rewrite app_nil_r, IH.
      cbn [take forallb length drop]. rewrite Hx. reflexivity.
    + cbn [take forallb length flat_map]. rewrite Hx, andb_false_r.
      reflexivity.
Qed.

Lemma rmatch_Rep_Backref n c s :
  rmatch (Rep n Backref) (Some [c]) s
  = if bool_decide (take n s = replicate n c)
    then [(Some [c], drop n s)] else [].
Proof.
  revert s; induction n as [|n IH]; intros s.
  - rewrite rmatch_Rep_0. reflexivity.
  - rewrite rmatch_Rep_S.
    change (rmatch Backref (Some [c]) s)
      with (if bool_decide (take 1 s = [c])
            then [(Some [c], drop 1 s)] else []).
    destruct s as [|x s].
    + reflexivity.
    + cbn [take drop replicate].
      destruct (decide (x = c)) as [->|Hne].
      * rewrite bool_decide_eq_true_2 by reflexivity.
        cbn [flat_map fst snd]. rewrite app_nil_r, IH, !drop_0.
        destruct (decide (take n s = replicate n c)) as [He|He].
        -- rewrite !bool_decide_eq_true_2; congruence.
        -- rewrite !bool_decide_eq_false_2; congruence.
      * rewrite !bool_decide_eq_false_2 by congruence. reflexivity.
Qed.

(** [\d{n}$] *)
Lemma rep_digit_whole n cap s :
  existsb (fun st => bool_decide (st.2 = [])) (rmatch (Rep n Digit) cap s) = true
  <-> length s = n /\ Forall (fun c => is_digit c = true) s.
Proof.
  rewrite rmatch_Rep_Digit.
  destruct (n <=? length s)%nat eqn:Hlen; cbn [andb].
  - apply Nat.leb_le in Hlen.
    destruct (forallb is_digit (take n s)) eqn:Hd; cbn [existsb fst snd].
    + rewrite orb_false_r, bool_decide_eq_true.
      rewrite forallb_forall in Hd.
      split.
      * intros Hdrop. apply drop_nil_inv in Hdrop.
        assert (length s = n) as Hl by lia. split; [exact Hl|].
        rewrite take_ge in Hd by lia.
        apply Forall_forall. intros c Hc. apply Hd, list_elem_of_In, Hc.
      * intros [Hl _]. apply drop_ge. lia.
    + split; [discriminate|]. intros [Hl HF].
      rewrite take_ge in Hd by lia.
      assert (forallb is_digit s = true) as Habs; [|congruence].
      apply forallb_forall. intros c Hc.
      rewrite Forall_forall in HF. apply HF, list_elem_of_In, Hc.
  - apply Nat.leb_gt in Hlen. cbn [existsb]. split; [discriminate|].
    intros [Hl _]. lia.
Qed.

Lemma tenDigitRegex_spec s :
  test_anchored tenDigitRegex s = true <-> ten_digits s.
Proof. apply rep_digit_whole. Qed.

Lemma sameDigitRegex_spec s :
  test_anchored sameDigitRegex s = true
  <-> exists c, is_digit c = true /\ s = replicate 10 c.
Proof.
  unfold test_anchored, sameDigitRegex.
  destruct s as [|x s].
  { cbn. split; [discriminate|]. intros (c & _ & Hs). discriminate. }
  change (rmatch (Seq (Group Digit) (Rep 9 Backref)) None (x :: s))
    with (flat_map (fun st => rmatch (Rep 9 Backref) st.1 st.2)
            ((fun st => (Some (take (length (x :: s) - length st.2) (x :: s)),
                         st.2))
               <$> (if is_digit x then [(@None jsstring, s)] else []))).
  destruct (is_digit x) eqn:Hx.
  - cbn [fmap list_fmap flat_map fst snd length].
    replace (S (length s) - length s)%nat with 1%nat by lia.
    cbn [take]. rewrite app_nil_r, rmatch_Rep_Backref.
    destruct (decide (take 9 s = replicate 9 x)) as [He|He].
    + rewrite bool_decide_eq_true_2 by exact He.
      cbn [existsb fst snd]. rewrite orb_false_r, bool_decide_eq_true.
      split.
      * intros Hdrop. exists x. split; [exact Hx|].
        apply drop_nil_inv in Hdrop.
        assert (length (take 9 s) = 9%nat) as Hl
            by (rewrite He; apply length_replicate).
        rewrite length_take in Hl.
        rewrite take_ge in He by lia. rewrite He. reflexivity.
      * intros (c & _ & Hs). injection Hs as -> ->. reflexivity.
    + rewrite bool_decide_eq_false_2 by exact He. cbn [existsb].
      split; [discriminate|]. intros (c & _ & Hs).
      injection Hs as -> ->. exfalso. apply He. reflexivity.
  - cbn. split; [discriminate|]. intros (c & Hc & Hs).
    injection Hs as -> ->. congruence.
Qed.

(** ** Properties of [validateNationalId] *)

Lemma is_digit_bounds c : is_digit c = true -> 48 <= Z.of_N c <= 57.
Proof.
  unfold is_digit. intros H. apply andb_true_iff in H as [H1 H2].
  apply N.leb_le in H1, H2. lia.
Qed.

Lemma validateNationalId_length s :
  length s <> 10%nat -> validateNationalId s = false.
Proof.
  intros H. unfold validateNationalId.
  apply Nat.eqb_neq in H. rewrite H, orb_true_r. reflexivity.
Qed.

Lemma strict_eq_NaN_r a : strict_eq a NaN = false.
Proof. destruct a; reflexivity. Qed.

Ltac digit_or_reject c :=
  let Hd := fresh "Hd" in
  destruct (is_digit c) eqn:Hd;
  [ | split;
      [ cbn; rewrite ?strict_eq_NaN_r; try discriminate;
        case (_ <? _); discriminate
      | let H := fresh in
        intros [[_ H] _]; rewrite Forall_forall in H;
        rewrite H in Hd; [discriminate | set_solver] ] ].

Lemma validateNationalId_ten c0 c1 c2 c3 c4 c5 c6 c7 c8 c9 :
  let s := [c0; c1; c2; c3; c4; c5; c6; c7; c8; c9] in
  validateNationalId s = true
  <-> ten_digits s /\ ~ all_identical s /\ digit_at s 9 = expected_check_digit s.
Proof.
  intros s. unfold validateNationalId.
  change (bool_decide (s = []) || negb (length s =? 10)%nat) with false.
  cbv iota.
  destruct (test_anchored sameDigitRegex s) eqn:Hsame.
  { split; [discriminate|]. intros (_ & Hn & _). exfalso. apply Hn.
    apply sameDigitRegex_spec in Hsame as (c & _ & ->).
    exists c. reflexivity. }
  subst s. cbn [fold_left seq lookup list_lookup]. unfold parseInt.
  digit_or_reject c0. digit_or_reject c1. digit_or_reject c2.
  digit_or_reject c3. digit_or_reject c4. digit_or_reject c5.
  digit_or_reject c6. digit_or_reject c7. digit_or_reject c8.
  digit_or_reject c9.
  cbn [add mul sub rem lt strict_eq].
  change (11 =? 0) with false. cbv iota.
  unfold lt, expected_check_digit, weighted_sum.
  cbn [fmap list_fmap seq foldr]. unfold digit_at. cbn [nth].
  cbv [Z.of_nat Pos.of_succ_nat Pos.succ].
  assert (~ all_identical [c0; c1; c2; c3; c4; c5; c6; c7; c8; c9]) as Hni.
  { intros (c & Hc). cbn in Hc. injection Hc as -> -> -> -> -> -> -> -> -> ->.
    apply not_true_iff_false in Hsame. apply Hsame.
    apply sameDigitRegex_spec. exists c. split; [assumption | reflexivity]. }
  assert (ten_digits [c0; c1; c2; c3; c4; c5; c6; c7; c8; c9]) as Hten.
  { split; [reflexivity|]. repeat constructor; assumption. }
  repeat match goal with
         | H : is_digit ?c = true |- _ => apply is_digit_bounds in H
         end.
  match goal with |- context [Z.rem ?x 11] => set (x1 := x) end.
  match goal with |- context [Z.modulo ?y 11] => set (y1 := y) end.
  assert (x1 = y1) as Hxy by (subst x1 y1; lia).
  assert (0 <= x1) as Hx1 by (subst x1; lia).
  rewrite Z.rem_mod_nonneg by lia. rewrite Hxy.
  generalize (y1 `mod` 11). intros r.
  split.
  - intros H. split; [exact Hten|]. split; [exact Hni|].
    destruct (r <? 2); apply Z.eqb_eq in H; exact H.
  - intros (_ & _ & H). destruct (r <? 2); apply Z.eqb_eq; exact H.
Qed.

Lemma validateNationalId_spec s :
  validateNationalId s = true
  <-> ten_digits s /\ ~ all_identical s /\ digit_at s 9 = expected_check_digit s.
Proof.
  destruct (decide (length s = 10%nat)) as [Hl|Hl].
  - do 10 (destruct s as [|? s]; [discriminate Hl|]).
    destruct s; [|discriminate Hl].
    apply validateNationalId_ten.
  - rewrite validateNationalId_length by exact Hl.
    split; [discriminate|]. intros [[Hl' _] _]. contradiction.
Qed.

(** C1. For every string of exactly ten decimal digits that are not all
    identical, [validateNationalId] returns true if and only if the tenth
    digit is the expected check digit: with [sum] the sum of
    [digit[i] * (10 - i)] for [i] from 0 to 8 and [remainder = sum mod 11],
    the expected digit is [remainder] when [remainder < 2] and
    [11 - remainder] otherwise. *)
Theorem validateNationalId_check_digit (s : jsstring) :
  ten_digits s -> ~ all_identical s ->
  (validateNationalId s = true <-> digit_at s 9 = expected_check_digit s).
Proof.
  intros Hten Hni. rewrite validateNationalId_spec. tauto.
Qed.

Lemma validateNationalId_check_digit_witness :
  ten_digits (lit "0499370899") /\ ~ all_identical (lit "0499370899")
  /\ (validateNationalId (lit "0499370899") = true
      <-> digit_at (lit "0499370899") 9
          = expected_check_digit (lit "0499370899")).
Proof.
  assert (ten_digits (lit "0499370899")) as Hten.
  { split; [reflexivity | repeat constructor]. }
  assert (~ all_identical (lit "0499370899")) as Hni.
  { intros (c & Hc). vm_compute in Hc. congruence. }
  split; [exact Hten|]. split; [exact Hni|].
  exact (validateNationalId_check_digit (lit "0499370899") Hten Hni).
Defined.

(** C3. For every string that does not match [^\d{10}$] (wrong length,
    empty, or some unit that is not a digit), [validateNationalId] returns
    false.  The function is total: indexing, [parseInt] and [test] have a
    result on every string, so no input makes it throw. *)
Theorem validateNationalId_rejects_malformed (s : jsstring) :
  test_anchored tenDigitRegex s = false -> validateNationalId s = false.
Proof.
  intros Hre. apply not_true_is_false. intros Hv.
  apply validateNationalId_spec in Hv as (Hten & _).
  apply tenDigitRegex_spec in Hten. congruence.
Qed.

Lemma validateNationalId_rejects_malformed_witness :
  test_anchored tenDigitRegex (lit "04993708x9") = false
  /\ validateNationalId (lit "04993708x9") = false.
Proof.
  split; [reflexivity|].
  apply (validateNationalId_rejects_malformed (lit "04993708x9")).
  reflexivity.
Defined.

(** C6. [validateNationalId("0499370899")] is true, and replacing the last
    digit of an accepted string by any other digit gives a string that is
    rejected. *)
Theorem validateNationalId_last_digit :
  validateNationalId (lit "0499370899") = true
  /\ forall (prefix : jsstring) (d d' : N),
       validateNationalId (prefix ++ [d]) = true ->
       is_digit d' = true -> d' <> d ->
       validateNationalId (prefix ++ [d']) = false.
Proof.
  split; [reflexivity|].
  intros prefix d d' Hv Hd' Hne.
  apply not_true_is_false. intros Hv'.
  apply validateNationalId_spec in Hv as ((Hl & _) & _ & Hv).
  apply validateNationalId_spec in Hv' as (_ & _ & Hv').
  rewrite length_app in Hl. cbn [length] in Hl.
  do 9 (destruct prefix as [|? prefix]; [cbn in Hl; lia|]).
  destruct prefix; [|cbn in Hl; lia].
  unfold digit_at, expected_check_digit, weighted_sum in Hv, Hv'.
  cbn [app nth fmap list_fmap seq foldr] in Hv, Hv'.
  unfold digit_at in Hv, Hv'. cbn [nth] in Hv, Hv'.
  rewrite <- Hv in Hv'. apply Hne. lia.
Qed.

Lemma validateNationalId_last_digit_witness :
  validateNationalId (lit "049937089" ++ [57%N]) = true
  /\ validateNationalId (lit "049937089" ++ [52%N]) = false.
Proof.
  split; [reflexivity|].
  apply (proj2 validateNationalId_last_digit (lit "049937089") 57%N 52%N);
    [reflexivity | reflexivity | discriminate].
Defined.

(** C7. Every ten-digit string whose digits are all identical, such as
    "1111111111", is rejected by [validateNationalId]. *)
Theorem validateNationalId_rejects_repeated (s : jsstring) :
  ten_digits s -> all_identical s -> validateNationalId s = false.
Proof.
  intros _ Hall. apply not_true_is_false. intros Hv.
  apply validateNationalId_spec in Hv as (_ & Hni & _). contradiction.
Qed.

Lemma validateNationalId_rejects_repeated_witness :
  ten_digits (lit "1111111111") /\ all_identical (lit "1111111111")
  /\ validateNationalId (lit "1111111111") = false.
Proof.
  assert (ten_digits (lit "1111111111")) as Hten.
  { split; [reflexivity | repeat constructor]. }
  assert (all_identical (lit "1111111111")) as Hall.
  { exists 49%N. reflexivity. }
  split; [exact Hten|]. split; [exact Hall|].
  exact (validateNationalId_rejects_repeated (lit "1111111111") Hten Hall).
Defined.

(** ** Properties of [validatePhoneNumber] *)

(** [9\d{9}$] *)
Lemma phone_tail_spec cap u :
  existsb (fun st => bool_decide (st.2 = []))
          (rmatch (Seq (Lit 57) (Rep 9 Digit)) cap u) = true
  <-> exists rest, u = 57%N :: rest /\ length rest = 9%nat
                   /\ Forall (fun c => is_digit c = true) rest.
Proof.
  change (rmatch (Seq (Lit 57) (Rep 9 Digit)) cap u)
    with (flat_map (fun st => rmatch (Rep 9 Digit) st.1 st.2)
            (rmatch (Lit 57) cap u)).
  destruct u as [|x rest].
  { cbn. split; [discriminate|]. intros (? & ? & _). discriminate. }
  change (rmatch (Lit 57) cap (x :: rest))
    with (if (x =? 57)%N then [(cap, rest)] else []).
  destruct (N.eqb_spec x 57) as [->|Hx].
  - cbn [flat_map fst snd]. rewrite app_nil_r, rep_digit_whole.
    split.
    + intros H. exists rest. split; [reflexivity | exact H].
    + intros (rest' & Heq & H). injection Heq as <-. exact H.
  - cbn. split; [discriminate|]. intros (? & Heq & _). congruence.
Qed.

(** [(\+98|0)] *)
Lemma phone_prefix_spec t st :
  In st (rmatch (Group (Alt (Seq (Lit 43) (Seq (Lit 57) (Lit 56))) (Lit 48)))
                None t)
  <-> (t = lit "+98" ++ st.2 \/ t = lit "0" ++ st.2)
      /\ st.1 = Some (take (length t - length st.2)%nat t).
Proof.
  change (lit "+98") with ([43; 57; 56]%N : jsstring).
  change (lit "0") with ([48%N] : jsstring).
  destruct st as [cap u]. cbn [fst snd].
  destruct t as [|a t]; [cbn; split; [tauto | intros [[?|?] _]; discriminate]|].
  cbn [rmatch].
  destruct (N.eqb_spec a 48) as [->|Ha0].
  { cbn. split.
    - intros [H|[]]. injection H as <- <-. split; [right|]; reflexivity.
    - intros [[H|H] Hc]; [discriminate|]. injection H as ->. left.
      rewrite Hc. reflexivity. }
  destruct (N.eqb_spec a 43) as [->|Ha1].
  2:{ cbn. split; [tauto|]. intros [[H|H] _]; injection H; congruence. }
  destruct t as [|b t]; [cbn; split; [tauto | intros [[?|?] _]; discriminate]|].
  cbn [flat_map fst snd rmatch].
  destruct (N.eqb_spec b 57) as [->|Hb].
  2:{ cbn. split; [tauto|]. intros [[H|H] _]; injection H; congruence. }
  destruct t as [|c t]; [cbn; split; [tauto | intros [[?|?] _]; discriminate]|].
  cbn [flat_map fst snd rmatch app].
  destruct (N.eqb_spec c 56) as [->|Hc].
  2:{ cbn. split; [tauto|]. intros [[H|H] _]; injection H; congruence. }
  cbn. split.
  - intros [H|[]]. injection H as <- <-. split; [left|]; reflexivity.
  - intros [[H|H] Hc]; [|discriminate]. injection H as ->. left.
    rewrite Hc. reflexivity.
Qed.

Lemma phoneRegex_spec t :
  test_anchored phoneRegex t = true <-> iranian_mobile t.
Proof.
  unfold test_anchored, phoneRegex, iranian_mobile.
  set (G := Group (Alt (Seq (Lit 43) (Seq (Lit 57) (Lit 56))) (Lit 48))).
  set (T := Seq (Lit 57) (Rep 9 Digit)).
  change (rmatch (Seq (Opt G) T) None t)
    with (flat_map (fun st => rmatch T st.1 st.2)
            (rmatch G None t ++ [(None, t)])).
  rewrite flat_map_app, existsb_app. cbn [flat_map fst snd].
  rewrite app_nil_r, orb_true_iff. unfold T at 2. rewrite phone_tail_spec.
  rewrite existsb_exists.
  split.
  - intros [(st & Hin & Hst)|(rest & -> & Hl & HF)].
    + apply in_flat_map in Hin as (st0 & Hin0 & Hin).
      assert (existsb (fun st => bool_decide (st.2 = []))
                      (rmatch T st0.1 st0.2) = true) as Hex
          by (apply existsb_exists; eauto).
      apply phone_tail_spec in Hex as (rest & Hu & Hl & HF).
      apply phone_prefix_spec in Hin0 as [Hp _].
      rewrite Hu in Hp.
      destruct Hp as [->| ->].
      * exists (lit "+98"), rest. tauto.
      * exists (lit "0"), rest. tauto.
    + exists [], rest. tauto.
  - intros (prefix & rest & -> & Hp & Hl & HF).
    destruct Hp as [->|Hp]; [right; exists rest; auto|].
    left.
    assert (forall cap, exists st,
               In st (rmatch T cap (57%N :: rest))
               /\ bool_decide (st.2 = []) = true) as Htail.
    { intros cap. apply existsb_exists, phone_tail_spec. eauto. }
    set (u := 57%N :: rest) in *.
    set (cap := Some (take (length (prefix ++ u) - length u)%nat (prefix ++ u))).
    destruct (Htail cap) as (st & Hin & Hst).
    exists st. split; [|exact Hst].
    apply in_flat_map. exists (cap, u). split; [|exact Hin].
    apply phone_prefix_spec. cbn [fst snd].
    split; [|reflexivity]. destruct Hp as [->| ->]; tauto.
Qed.

Lemma replace_space_filter s :
  replace_class_g is_space [] s = remove_whitespace s.
Proof.
  unfold replace_class_g, remove_whitespace.
  induction s as [|c s IH]; [reflexivity|].
  cbn [flat_map]. rewrite filter_cons, IH.
  destruct (is_space c); [rewrite decide_False by discriminate
                         | rewrite decide_True by reflexivity]; reflexivity.
Qed.

(** C10, amended.  [validatePhoneNumber] returns true for the empty string,
    and for every other input it returns true if and only if the input
    without its whitespace units (everything [\s] matches: space, tab, line
    terminators, no-break space and the other Unicode blanks) is an
    optional [+98] or [0] followed by [9] and nine digits. *)
Theorem validatePhoneNumber_spec :
  validatePhoneNumber [] = true
  /\ forall phone : jsstring,
       phone <> [] ->
       (validatePhoneNumber phone = true
        <-> iranian_mobile (remove_whitespace phone)).
Proof.
  split; [reflexivity|].
  intros phone Hne. unfold validatePhoneNumber.
  rewrite bool_decide_eq_false_2 by exact Hne.
  rewrite replace_space_filter. apply phoneRegex_spec.
Qed.

Lemma validatePhoneNumber_spec_witness :
  lit "0912 345 6789" <> []
  /\ (validatePhoneNumber (lit "0912 345 6789") = true
      <-> iranian_mobile (remove_whitespace (lit "0912 345 6789"))).
Proof.
  split; [discriminate|].
  apply (proj2 validatePhoneNumber_spec (lit "0912 345 6789")).
  discriminate.
Defined.

(** C10 as stated fails when the blank is not the space character: with a
    tab inside, the number is accepted although removing the spaces alone
    leaves the tab in place. *)
Lemma validatePhoneNumber_tab_counterexample :
  phone_with_tab <> []
  /\ validatePhoneNumber phone_with_tab = true
  /\ ~ iranian_mobile (remove_spaces phone_with_tab).
Proof.
  split; [discriminate|]. split; [reflexivity|].
  intros (prefix & rest & Heq & Hp & Hl & HF).
  vm_compute in Heq.
  destruct Hp as [->|[->| ->]]; vm_compute in Heq; try discriminate.
  injection Heq as <-. discriminate Hl.
Qed.

(** ** Properties of the queries *)

Import Supabase StudentService ExpectedStudentService.

Section Order.
Context {A : Type} (key : A -> Z).

Lemma insert_desc_perm x l : insert_desc key x l ≡ₚ x :: l.
Proof.
  induction l as [|y l IH]; [reflexivity|]. cbn [insert_desc].
  destruct (key y <=? key x); [reflexivity|].
  rewrite IH. apply Permutation_swap.
Qed.

Lemma order_desc_perm l : order_desc key l ≡ₚ l.
Proof.
  induction l as [|x l IH]; [reflexivity|].
  cbn [order_desc foldr]. rewrite insert_desc_perm.
  constructor. exact IH.
Qed.

Lemma insert_desc_fmap (f : A -> A) x l :
  (forall y, key (f y) = key y) ->
  insert_desc key (f x) (f <$> l) = f <$> insert_desc key x l.
Proof.
  intros Hf. induction l as [|y l IH]; [reflexivity|].
  cbn [insert_desc fmap list_fmap]. rewrite !Hf.
  destruct (key y <=? key x); [reflexivity|].
  cbn [fmap list_fmap]. f_equal. exact IH.
Qed.

Lemma order_desc_fmap (f : A -> A) l :
  (forall y, key (f y) = key y) ->
  order_desc key (f <$> l) = f <$> order_desc key l.
Proof.
  intros Hf. induction l as [|x l IH]; [reflexivity|].
  cbn [order_desc foldr fmap list_fmap].
  change (foldr (insert_desc key) [] (f <$> l)) with (order_desc key (f <$> l)).
  rewrite IH. apply insert_desc_fmap, Hf.
Qed.
End Order.

Lemma filter_fmap_comm {A} (P : A -> Prop) `{!forall x, Decision (P x)}
    (f : A -> A) (l : list A) :
  (forall x, P (f x) <-> P x) -> filter P (f <$> l) = f <$> filter P l.
Proof.
  intros Hf. induction l as [|x l IH]; [reflexivity|].
  cbn [fmap list_fmap]. rewrite !filter_cons.
  destruct (decide (P x)) as [Hx|Hx].
  - rewrite decide_True by (apply Hf, Hx).
    cbn [fmap list_fmap]. f_equal. exact IH.
  - rewrite decide_False by (rewrite Hf; exact Hx). exact IH.
Qed.

Lemma filter_all {A} (P : A -> Prop) `{!forall x, Decision (P x)} (l : list A) :
  Forall P l -> filter P l = l.
Proof.
  induction 1 as [|x l Hx _ IH]; [reflexivity|].
  rewrite filter_cons_True by exact Hx. f_equal. exact IH.
Qed.

Lemma filter_none {A} (P : A -> Prop) `{!forall x, Decision (P x)} (l : list A) :
  Forall (fun x => ~ P x) l -> filter P l = [].
Proof.
  induction 1 as [|x l Hx _ IH]; [reflexivity|].
  rewrite filter_cons_False by exact Hx. exact IH.
Qed.

(** Membership in the set of registered identity numbers is membership in
    the column of table [students]. *)
Lemma registeredNationalIds_spec db e :
  ExpectedStudent.national_id e ∈ registeredNationalIds db <-> registered_in db e.
Proof.
  unfold registeredNationalIds, registered_in, getAllStudents.
  rewrite elem_of_list_to_set. rewrite order_desc_perm. reflexivity.
Qed.

(** *** The effect of the update calls on a row *)

Lemma apply_row_last_flag us r :
  apply_row us r
  = match last_flag us (ExpectedStudent.id r) with
    | Some b => ExpectedStudent.set_is_registered b r
    | None => r
    end.
Proof.
  revert r. induction us as [|u us IH]; intros r; [reflexivity|].
  change (apply_row (u :: us) r)
    with (apply_row us
            (if bool_decide (ExpectedStudent.id r = u.1)
             then ExpectedStudent.set_is_registered u.2 r else r)).
  rewrite IH. cbn [last_flag].
  destruct (bool_decide (ExpectedStudent.id r = u.1));
    cbn [ExpectedStudent.id ExpectedStudent.set_is_registered];
    destruct (last_flag us (ExpectedStudent.id r)); reflexivity.
Qed.

Lemma apply_row_same_but_flag us r : same_but_flag r (apply_row us r).
Proof.
  rewrite apply_row_last_flag.
  destruct (last_flag us (ExpectedStudent.id r));
    unfold same_but_flag; cbn; tauto.
Qed.

Lemma apply_row_idempotent us r : apply_row us (apply_row us r) = apply_row us r.
Proof.
  rewrite (apply_row_last_flag us (apply_row us r)).
  destruct (apply_row_same_but_flag us r) as (-> & _).
  rewrite (apply_row_last_flag us r).
  destruct (last_flag us (ExpectedStudent.id r)); reflexivity.
Qed.

Lemma last_flag_None us i : i ∉ us.*1 -> last_flag us i = None.
Proof.
  induction us as [|u us IH]; [reflexivity|].
  cbn [fmap list_fmap last_flag]. rewrite not_elem_of_cons. intros [Hne Hni].
  rewrite IH by exact Hni. rewrite bool_decide_eq_false_2 by exact Hne.
  reflexivity.
Qed.

Lemma last_flag_NoDup us i b :
  NoDup us.*1 -> (i, b) ∈ us -> last_flag us i = Some b.
Proof.
  induction us as [|u us IH]; [intros _ H; inversion H|].
  cbn [fmap list_fmap last_flag]. rewrite NoDup_cons. intros [Hni Hnd].
  rewrite elem_of_cons. intros [<-|Hin].
  - cbn [fst snd]. rewrite last_flag_None by exact Hni.
    rewrite bool_decide_eq_true_2 by reflexivity. reflexivity.
  - rewrite IH by assumption. reflexivity.
Qed.

Lemma applyUpdates_fmap us rows : applyUpdates us rows = apply_row us <$> rows.
Proof.
  unfold applyUpdates, apply_row.
  revert rows. induction us as [|u us IH]; intros rows.
  - cbn [fold_left]. symmetry. apply list_fmap_id.
  - cbn [fold_left]. rewrite IH. unfold update_is_registered.
    rewrite <- list_fmap_compose. reflexivity.
Qed.

(** The loop performs the update calls of [registrationUpdates]. *)
Lemma updateRegistrationStatus_updates sessionId db :
  updateRegistrationStatus sessionId db
  = mkdb (students db)
         (applyUpdates (registrationUpdates sessionId db) (expected_students db)).
Proof.
  unfold updateRegistrationStatus, registrationUpdates, applyUpdates.
  generalize (getExpectedStudents (Some sessionId) db) as l.
  generalize (registeredNationalIds db) as registered.
  intros registered l. destruct db as [st rows]. cbn [students expected_students].
  revert rows. induction l as [|e l IH]; intros rows; [reflexivity|].
  cbn [fold_left fmap list_fmap students expected_students fst snd].
  apply IH.
Qed.

(** *** The queries only read what the updates leave unchanged *)

Lemma getExpectedStudents_fmap sid st rows (f : ExpectedStudent.t -> ExpectedStudent.t) :
  (forall r, same_but_flag r (f r)) ->
  getExpectedStudents sid (mkdb st (f <$> rows))
  = f <$> getExpectedStudents sid (mkdb st rows).
Proof.
  intros Hf. unfold getExpectedStudents. cbn [expected_students].
  assert (forall r, ExpectedStudent.created_at (f r) = ExpectedStudent.created_at r)
    as Hkey by (intros r; apply (Hf r)).
  destruct sid as [s|]; [|apply order_desc_fmap, Hkey].
  destruct (bool_decide (s = [])); [apply order_desc_fmap, Hkey|].
  rewrite filter_fmap_comm; [apply order_desc_fmap, Hkey|].
  intros r. destruct (Hf r) as (_ & _ & _ & _ & _ & -> & _). reflexivity.
Qed.

Lemma registrationUpdates_fmap sid st rows (f : ExpectedStudent.t -> ExpectedStudent.t) :
  (forall r, same_but_flag r (f r)) ->
  registrationUpdates sid (mkdb st (f <$> rows))
  = registrationUpdates sid (mkdb st rows).
Proof.
  intros Hf. unfold registrationUpdates.
  rewrite getExpectedStudents_fmap by exact Hf.
  rewrite <- list_fmap_compose. apply list_fmap_ext. intros _ r _.
  cbn [compose]. destruct (Hf r) as (-> & _ & _ & -> & _). reflexivity.
Qed.

(** The rows of a query are rows of the table. *)
Lemma getExpectedStudents_sublist sid db :
  exists l, l `sublist_of` expected_students db
            /\ getExpectedStudents sid db ≡ₚ l.
Proof.
  unfold getExpectedStudents.
  destruct sid as [s|]; [destruct (bool_decide (s = []))|].
  - exists (expected_students db). split; [reflexivity | apply order_desc_perm].
  - exists (filter (fun r => ExpectedStudent.upload_session_id r = Some s)
                   (expected_students db)).
    split; [apply sublist_filter | apply order_desc_perm].
  - exists (expected_students db). split; [reflexivity | apply order_desc_perm].
Qed.

Lemma getExpectedStudents_elem sid db e :
  e ∈ getExpectedStudents sid db -> e ∈ expected_students db.
Proof.
  destruct (getExpectedStudents_sublist sid db) as (l & Hsub & Hperm).
  rewrite Hperm. intros He. eapply elem_of_sublist; eassumption.
Qed.

Lemma getExpectedStudents_session s db e :
  s <> [] -> e ∈ getExpectedStudents (Some s) db ->
  ExpectedStudent.upload_session_id e = Some s.
Proof.
  intros Hs. unfold getExpectedStudents.
  rewrite bool_decide_eq_false_2 by exact Hs.
  rewrite order_desc_perm, list_elem_of_filter. tauto.
Qed.

Lemma getExpectedStudents_NoDup sid db :
  NoDup (ExpectedStudent.id <$> expected_students db) ->
  NoDup (ExpectedStudent.id <$> getExpectedStudents sid db).
Proof.
  intros Hnd.
  destruct (getExpectedStudents_sublist sid db) as (l & Hsub & Hperm).
  rewrite Hperm. eapply sublist_NoDup; [exact Hnd|].
  apply fmap_sublist, Hsub.
Qed.

(** With distinct identifiers, a row is determined by its identifier. *)
Lemma NoDup_id_inj (rows : list ExpectedStudent.t) r r' :
  NoDup (ExpectedStudent.id <$> rows) -> r ∈ rows -> r' ∈ rows ->
  ExpectedStudent.id r = ExpectedStudent.id r' -> r = r'.
Proof.
  intros Hnd Hr Hr' Heq.
  apply list_elem_of_lookup in Hr as (i & Hi), Hr' as (j & Hj).
  assert (i = j) as ->.
  { eapply NoDup_lookup; [exact Hnd| |];
      rewrite list_lookup_fmap; [rewrite Hi | rewrite Hj]; cbn;
      [reflexivity | congruence]. }
  congruence.
Qed.

Lemma Permutation_of_eq {A} (l l' : list A) : l = l' -> l ≡ₚ l'.
Proof. intros ->. reflexivity. Qed.

(** The flag an identifier ends with does not depend on the order of the
    update calls when no identifier is updated twice. *)
Lemma last_flag_perm us us' i :
  NoDup us.*1 -> us ≡ₚ us' -> last_flag us i = last_flag us' i.
Proof.
  intros Hnd Hperm.
  assert (NoDup us'.*1) as Hnd' by (rewrite <- Hperm; exact Hnd).
  destruct (decide (i ∈ us.*1)) as [Hin|Hout].
  - apply list_elem_of_fmap in Hin as ([j b] & -> & Hjb). cbn [fst].
    rewrite (last_flag_NoDup us j b Hnd Hjb).
    rewrite Hperm in Hjb. rewrite (last_flag_NoDup us' j b Hnd' Hjb).
    reflexivity.
  - rewrite (last_flag_None us i Hout).
    rewrite Hperm in Hout. rewrite (last_flag_None us' i Hout). reflexivity.
Qed.

(** The identifiers of the expected rows are those of the table before
    the run. *)
Lemma updateRegistrationStatus_ids sessionId db :
  ExpectedStudent.id <$> expected_students (updateRegistrationStatus sessionId db)
  = ExpectedStudent.id <$> expected_students db.
Proof.
  rewrite updateRegistrationStatus_updates, applyUpdates_fmap.
  cbn [expected_students]. rewrite <- list_fmap_compose.
  apply list_fmap_ext. intros _ r _. cbn [compose].
  apply (apply_row_same_but_flag _ r).
Qed.

(** ** Reconciliation *)

(** C2. For the expected list of a batch and the registered list, (a) the
    unregistered students are exactly the expected records whose identity
    number does not occur among the registered ones, in the order of the
    expected list, and (b) the updates performed are one per expected
    record, each assigning the flag "its identity number is registered"
    whether or not the stored flag differs; with distinct row identifiers
    the expected records after the run are, up to their order, the
    expected records before it with that flag. *)
Theorem reconciliation_spec (sessionId : jsstring) (db : database) :
  getUnregisteredStudents sessionId db
  = filter (fun e => ~ registered_in db e)
           (getExpectedStudents (Some sessionId) db)
  /\ getUnregisteredStudents sessionId db
       `sublist_of` getExpectedStudents (Some sessionId) db
  /\ (forall e,
        e ∈ getUnregisteredStudents sessionId db
        <-> e ∈ getExpectedStudents (Some sessionId) db /\ ~ registered_in db e)
  /\ expected_students (updateRegistrationStatus sessionId db)
     = applyUpdates
         ((fun e => (ExpectedStudent.id e, bool_decide (registered_in db e)))
            <$> getExpectedStudents (Some sessionId) db)
         (expected_students db)
  /\ (NoDup (ExpectedStudent.id <$> expected_students db) ->
      getExpectedStudents (Some sessionId) (updateRegistrationStatus sessionId db)
      ≡ₚ (fun e => ExpectedStudent.set_is_registered
                     (bool_decide (registered_in db e)) e)
           <$> getExpectedStudents (Some sessionId) db).
Proof.
  assert (getUnregisteredStudents sessionId db
          = filter (fun e => ~ registered_in db e)
                   (getExpectedStudents (Some sessionId) db)) as Hfilter.
  { unfold getUnregisteredStudents. apply list_filter_iff. intros e.
    rewrite registeredNationalIds_spec. reflexivity. }
  assert (registrationUpdates sessionId db
          = (fun e => (ExpectedStudent.id e, bool_decide (registered_in db e)))
              <$> getExpectedStudents (Some sessionId) db) as Hupd.
  { unfold registrationUpdates. apply list_fmap_ext. intros _ e _.
    f_equal. apply bool_decide_ext, registeredNationalIds_spec. }
  split; [exact Hfilter|]. split; [|split; [|split]].
  - rewrite Hfilter. apply sublist_filter.
  - intros e. rewrite Hfilter, list_elem_of_filter. tauto.
  - rewrite updateRegistrationStatus_updates, Hupd. reflexivity.
  - intros Hnd. rewrite updateRegistrationStatus_updates.
    rewrite applyUpdates_fmap.
    rewrite getExpectedStudents_fmap by apply apply_row_same_but_flag.
    destruct db as [st rows]. cbn [students expected_students] in *.
    apply Permutation_of_eq.
    apply list_fmap_ext. intros i e Hi.
    rewrite apply_row_last_flag.
    rewrite (last_flag_NoDup _ _ (bool_decide (registered_in (mkdb st rows) e)));
      [reflexivity | |].
    + rewrite Hupd, <- list_fmap_compose.
      apply (getExpectedStudents_NoDup (Some sessionId) (mkdb st rows)), Hnd.
    + rewrite Hupd. apply list_elem_of_fmap. exists e.
      split; [reflexivity|]. eapply list_elem_of_lookup_2, Hi.
Qed.

Lemma sample_db_NoDup : NoDup (ExpectedStudent.id <$> expected_students sample_db).
Proof.
  cbn. rewrite !NoDup_cons, !not_elem_of_cons.
  repeat split; try discriminate; try apply not_elem_of_nil.
  apply NoDup_nil_2.
Qed.

Lemma reconciliation_spec_witness :
  NoDup (ExpectedStudent.id <$> expected_students sample_db)
  /\ getExpectedStudents (Some (lit "B1"))
       (updateRegistrationStatus (lit "B1") sample_db)
     ≡ₚ (fun e => ExpectedStudent.set_is_registered
                    (bool_decide (registered_in sample_db e)) e)
          <$> getExpectedStudents (Some (lit "B1")) sample_db.
Proof.
  split; [exact sample_db_NoDup|].
  apply (proj2 (proj2 (proj2 (proj2 (reconciliation_spec (lit "B1") sample_db))))).
  exact sample_db_NoDup.
Defined.

(** The scenario of batch "B1": the first expected student is registered,
    the second is not. *)
Example sample_reconciliation :
  ExpectedStudent.national_id <$> getUnregisteredStudents (lit "B1") sample_db
  = [lit "0020020022"]
  /\ registrationUpdates (lit "B1") sample_db = [(1, true); (2, false)]
  /\ ExpectedStudent.is_registered
       <$> expected_students (updateRegistrationStatus (lit "B1") sample_db)
     = [true; false; false].
Proof. vm_compute. repeat split; reflexivity. Qed.

(** C4. Reconciling again after a reconciliation issues the same update
    calls, up to their order, and leaves the registered students as they
    are.  With distinct row identifiers the two runs give the same mapping
    from row identifier to flag, the second run leaves, up to the order of
    the rows, every expected-student row as it is, and so does applying
    the updates once more in whatever order. *)
Theorem updateRegistrationStatus_idempotent (sessionId : jsstring) (db : database) :
  registrationUpdates sessionId (updateRegistrationStatus sessionId db)
  ≡ₚ registrationUpdates sessionId db
  /\ students (updateRegistrationStatus sessionId
                 (updateRegistrationStatus sessionId db))
     = students (updateRegistrationStatus sessionId db)
  /\ (NoDup (ExpectedStudent.id <$> expected_students db) ->
      (list_to_map (registrationUpdates sessionId
                      (updateRegistrationStatus sessionId db)) : gmap Z bool)
      = list_to_map (registrationUpdates sessionId db)
      /\ expected_students (updateRegistrationStatus sessionId
                              (updateRegistrationStatus sessionId db))
         ≡ₚ expected_students (updateRegistrationStatus sessionId db)
      /\ forall updates : list (Z * bool),
           updates ≡ₚ registrationUpdates sessionId db ->
           applyUpdates updates
             (expected_students (updateRegistrationStatus sessionId db))
           ≡ₚ expected_students (updateRegistrationStatus sessionId db)).
Proof.
  assert (forall updates,
             (forall i, last_flag updates i
                        = last_flag (registrationUpdates sessionId db) i) ->
             applyUpdates updates
               (expected_students (updateRegistrationStatus sessionId db))
             = expected_students (updateRegistrationStatus sessionId db))
    as Hagain.
  { intros updates Hflags.
    rewrite updateRegistrationStatus_updates. cbn [expected_students].
    rewrite !applyUpdates_fmap, <- list_fmap_compose.
    apply list_fmap_ext. intros _ r _. cbn [compose].
    rewrite (apply_row_last_flag updates), Hflags, <- apply_row_last_flag.
    apply apply_row_idempotent. }
  assert (registrationUpdates sessionId (updateRegistrationStatus sessionId db)
          ≡ₚ registrationUpdates sessionId db) as Hupd.
  { apply Permutation_of_eq.
    rewrite updateRegistrationStatus_updates, applyUpdates_fmap.
    destruct db as [st rows]. cbn [students expected_students].
    apply registrationUpdates_fmap, apply_row_same_but_flag. }
  split; [exact Hupd|]. split.
  - rewrite (updateRegistrationStatus_updates _ (updateRegistrationStatus _ _)).
    reflexivity.
  - intros Hnd.
    assert (NoDup (registrationUpdates sessionId db).*1) as Hids.
    { unfold registrationUpdates. rewrite <- list_fmap_compose.
      apply (getExpectedStudents_NoDup (Some sessionId) db), Hnd. }
    assert (forall updates : list (Z * bool),
               updates ≡ₚ registrationUpdates sessionId db ->
               applyUpdates updates
                 (expected_students (updateRegistrationStatus sessionId db))
               ≡ₚ expected_students (updateRegistrationStatus sessionId db))
      as Hany.
    { intros updates Hperm. apply Permutation_of_eq, Hagain.
      intros i. symmetry. apply last_flag_perm; [exact Hids|].
      symmetry. exact Hperm. }
    split; [|split; [|exact Hany]].
    + apply list_to_map_proper; [|exact Hupd]. rewrite Hupd. exact Hids.
    + rewrite (updateRegistrationStatus_updates _ (updateRegistrationStatus _ _)).
      cbn [expected_students]. apply Hany, Hupd.
Qed.

Lemma updateRegistrationStatus_idempotent_witness :
  NoDup (ExpectedStudent.id <$> expected_students sample_db)
  /\ (list_to_map (registrationUpdates (lit "B1")
                     (updateRegistrationStatus (lit "B1") sample_db))
      : gmap Z bool)
     = list_to_map (registrationUpdates (lit "B1") sample_db)
  /\ applyUpdates [(2, false); (1, true)]
       (expected_students (updateRegistrationStatus (lit "B1") sample_db))
     ≡ₚ expected_students (updateRegistrationStatus (lit "B1") sample_db).
Proof.
  split; [exact sample_db_NoDup|].
  destruct (updateRegistrationStatus_idempotent (lit "B1") sample_db)
    as (_ & _ & Hagain).
  destruct (Hagain sample_db_NoDup) as (Hmap & _ & Hany).
  split; [exact Hmap|]. apply Hany. apply Permutation_swap.
Defined.

(** C5. The page starts a run only on the batch it has uploaded:
    [handleCompareData] refuses a missing or empty session, so the batch
    identifier of a run is never the empty text.  For such a run, with
    distinct row identifiers: the registered students are unchanged, and
    the expected-student rows after the run are, up to their order, the
    rows before it, each with all its fields except possibly
    [is_registered], and unchanged altogether when its batch identifier is
    not the one being reconciled.  The same holds for what the page does,
    whatever its current session. *)
Theorem updateRegistrationStatus_frame (sessionId : jsstring) (db : database) :
  sessionId <> [] ->
  NoDup (ExpectedStudent.id <$> expected_students db) ->
  students (updateRegistrationStatus sessionId db) = students db
  /\ (exists rows',
        rows' ≡ₚ expected_students (updateRegistrationStatus sessionId db)
        /\ Forall2 (fun r r' =>
                      same_but_flag r r'
                      /\ (ExpectedStudent.upload_session_id r <> Some sessionId ->
                          r' = r))
                   (expected_students db) rows')
  /\ forall currentSessionId : option jsstring,
       let after := (TrackingSystem.handleCompareData currentSessionId db).1 in
       students after = students db
       /\ exists rows',
            rows' ≡ₚ expected_students after
            /\ Forall2 (fun r r' =>
                          same_but_flag r r'
                          /\ (ExpectedStudent.upload_session_id r
                              <> currentSessionId -> r' = r))
                       (expected_students db) rows'.
Proof.
  intros Hs Hnd.
  assert (forall sid,
             sid <> [] ->
             Forall2 (fun r r' =>
                        same_but_flag r r'
                        /\ (ExpectedStudent.upload_session_id r <> Some sid ->
                            r' = r))
                     (expected_students db)
                     (expected_students (updateRegistrationStatus sid db)))
    as Hframe.
  { intros sid Hsid. rewrite updateRegistrationStatus_updates.
    cbn [expected_students]. rewrite applyUpdates_fmap.
    apply Forall2_fmap_r, Forall_Forall2_diag, Forall_forall. intros r Hr.
    split; [apply apply_row_same_but_flag|]. intros Hother.
    rewrite apply_row_last_flag, last_flag_None; [reflexivity|].
    unfold registrationUpdates. rewrite <- list_fmap_compose.
    intros Hin. apply list_elem_of_fmap in Hin as (e & Heq & He).
    cbn [compose fst] in Heq.
    apply Hother. rewrite <- (getExpectedStudents_session sid db e Hsid He).
    f_equal. apply (NoDup_id_inj (expected_students db)); try assumption.
    eapply getExpectedStudents_elem, He. }
  split; [|split].
  - rewrite updateRegistrationStatus_updates. reflexivity.
  - eexists. split; [reflexivity|]. apply Hframe, Hs.
  - intros currentSessionId after. subst after.
    unfold TrackingSystem.handleCompareData.
    assert (Forall2 (fun r r' : ExpectedStudent.t =>
                       same_but_flag r r'
                       /\ (ExpectedStudent.upload_session_id r <> currentSessionId ->
                           r' = r))
                    (expected_students db) (expected_students db)) as Hsame.
    { apply Forall_Forall2_diag, Forall_forall. intros r _.
      split; [|reflexivity]. unfold same_but_flag. tauto. }
    destruct currentSessionId as [sid|];
      [|split; [reflexivity | eexists; split; [reflexivity | exact Hsame]]].
    destruct (decide (sid = [])) as [->|Hsid].
    { rewrite bool_decide_eq_true_2 by reflexivity.
      split; [reflexivity | eexists; split; [reflexivity | exact Hsame]]. }
    rewrite bool_decide_eq_false_2 by exact Hsid. cbn [fst].
    split; [rewrite updateRegistrationStatus_updates; reflexivity|].
    eexists. split; [reflexivity|]. apply Hframe, Hsid.
Qed.

Lemma updateRegistrationStatus_frame_witness :
  lit "B1" <> []
  /\ NoDup (ExpectedStudent.id <$> expected_students sample_db)
  /\ students (updateRegistrationStatus (lit "B1") sample_db) = students sample_db.
Proof.
  split; [discriminate|]. split; [exact sample_db_NoDup|].
  apply (updateRegistrationStatus_frame (lit "B1") sample_db);
    [discriminate | exact sample_db_NoDup].
Defined.

(** On the sample tables a run on "B1" sets the flag of the first row and
    leaves the row of "B2" as it is. *)
Example sample_frame :
  expected_students (updateRegistrationStatus (lit "B1") sample_db)
  = [ExpectedStudent.mk 1 (lit "Sara") (lit "Ahmadi") (lit "0010010011")
       (lit "701") true (Some (lit "B1")) 210;
     ExpectedStudent.mk 2 (lit "Mina") (lit "Karimi") (lit "0020020022")
       (lit "702") false (Some (lit "B1")) 200;
     ExpectedStudent.mk 3 (lit "Zahra") (lit "Moradi") (lit "0030030033")
       (lit "701") false (Some (lit "B2")) 300].
Proof. vm_compute. reflexivity. Qed.

(** C9. An upload under a batch identifier first deletes the stored rows of
    that batch: the insert works on a table without any.  Afterwards the
    rows of the batch are exactly the inserted ones, which carry the
    identifier and the uploaded fields in order (none when the insert is
    refused); the rows of the other batches are as before, and so are the
    registered students. *)
Theorem uploadExpectedStudents_replaces_batch
    (students_ : list NewExpectedStudent.t) (sessionId : jsstring)
    (resp : insert_response) (db : database) :
  let after := (uploadExpectedStudents students_ sessionId resp db).1 in
  let data := default [] (uploadExpectedStudents students_ sessionId resp db).2 in
  Forall (fun r => ExpectedStudent.upload_session_id r <> Some sessionId)
         (expected_students (clearPreviousData sessionId db))
  /\ expected_students after
     = expected_students (clearPreviousData sessionId db) ++ data
  /\ filter (fun r => ExpectedStudent.upload_session_id r = Some sessionId)
            (expected_students after) = data
  /\ filter (fun r => ExpectedStudent.upload_session_id r <> Some sessionId)
            (expected_students after)
     = filter (fun r => ExpectedStudent.upload_session_id r <> Some sessionId)
              (expected_students db)
  /\ Forall (fun r => ExpectedStudent.upload_session_id r = Some sessionId) data
  /\ (accepted resp = true ->
      data = assign_ids (now resp) (first_id resp)
               (with_session sessionId <$> students_))
  /\ (accepted resp = false ->
      data = [] /\ (uploadExpectedStudents students_ sessionId resp db).2 = None)
  /\ students after = students db.
Proof.
  intros after data.
  assert (Forall (fun r => ExpectedStudent.upload_session_id r <> Some sessionId)
                 (expected_students (clearPreviousData sessionId db))) as Hclear.
  { cbn [clearPreviousData expected_students]. unfold delete_session.
    apply Forall_forall. intros r Hr. apply list_elem_of_filter in Hr. tauto. }
  assert (forall now i fs,
             Forall (fun r => ExpectedStudent.upload_session_id r = Some sessionId)
                    (assign_ids now i (with_session sessionId <$> fs))) as Hnew.
  { intros now i fs. revert i. induction fs as [|f fs IH]; intros i.
    - constructor.
    - cbn [fmap list_fmap assign_ids]. constructor; [reflexivity | apply IH]. }
  assert (expected_students after
          = expected_students (clearPreviousData sessionId db) ++ data
          /\ Forall (fun r => ExpectedStudent.upload_session_id r = Some sessionId)
                    data
          /\ students after = students db) as (Hafter & Hdata & Hst).
  { subst after data. unfold uploadExpectedStudents, insert_expected.
    destruct (accepted resp); cbn [fst snd default students expected_students].
    - split; [reflexivity|]. split; [apply Hnew | reflexivity].
    - rewrite app_nil_r. split; [reflexivity|]. split; [constructor | reflexivity]. }
  split; [exact Hclear|]. split; [exact Hafter|].
  split; [|split; [|split; [exact Hdata|split; [|split; [|exact Hst]]]]].
  - rewrite Hafter, filter_app, (filter_all _ data) by exact Hdata.
    rewrite filter_none; [reflexivity|].
    eapply Forall_impl; [exact Hclear|]. cbn. tauto.
  - rewrite Hafter, filter_app, (filter_none _ data), app_nil_r.
    + cbn [clearPreviousData expected_students]. unfold delete_session.
      apply list_filter_filter_l. tauto.
    + eapply Forall_impl; [exact Hdata|]. cbn. tauto.
  - intros Hacc. subst data. unfold uploadExpectedStudents, insert_expected.
    rewrite Hacc. reflexivity.
  - intros Hacc. subst data. unfold uploadExpectedStudents, insert_expected.
    rewrite Hacc. split; reflexivity.
Qed.

(** Uploading one student under "B1" replaces the two rows of that batch
    and keeps the row of "B2". *)
Example sample_upload_outcome :
  (fun r => (ExpectedStudent.id r, ExpectedStudent.upload_session_id r))
    <$> expected_students
          (uploadExpectedStudents sample_upload (lit "B1") sample_response
             sample_db).1
  = [(3, Some (lit "B2")); (10, Some (lit "B1"))].
Proof. vm_compute. reflexivity. Qed.

(** ** Ingestion *)

Import TrackingSystem.

Lemma processRow_cases row :
  (missing_required row -> processRow row = inl RequiredFieldsIncomplete)
  /\ (~ missing_required row -> invalid_identity row ->
      processRow row = inl NationalIdNotValid)
  /\ (~ missing_required row -> ~ invalid_identity row -> invalid_class row ->
      processRow row = inl ClassNotValid)
  /\ (~ missing_required row -> ~ invalid_identity row -> ~ invalid_class row ->
      ~ text_names row -> processRow row = inl DataProcessingError)
  /\ (~ missing_required row -> ~ invalid_identity row -> ~ invalid_class row ->
      forall first last,
        firstName row = Str first -> lastName row = Str last ->
        processRow row
        = inr (NewExpectedStudent.mk (sanitizeInput first) (sanitizeInput last)
                 (nationalId row) (className row) (Some false) None)).
Proof.
  unfold processRow, missing_required, invalid_identity, invalid_class,
    text_names, isValidClass.
  destruct (truthy (firstName row)) eqn:Hf; cbn [negb orb];
    [|repeat split; intros; tauto || (exfalso; tauto)].
  destruct (truthy (lastName row)) eqn:Hl; cbn [negb orb];
    [|repeat split; intros; tauto || (exfalso; tauto)].
  destruct (decide (nationalId row = [])) as [Hn|Hn];
    [rewrite bool_decide_eq_true_2 by exact Hn; cbn [orb];
     repeat split; intros; tauto || (exfalso; tauto)|].
  rewrite (bool_decide_eq_false_2 _ Hn). cbn [orb].
  destruct (decide (className row = [])) as [Hc|Hc];
    [rewrite bool_decide_eq_true_2 by exact Hc;
     repeat split; intros; tauto || (exfalso; tauto)|].
  rewrite (bool_decide_eq_false_2 _ Hc).
  assert (~ (true = false \/ true = false \/ nationalId row = []
             \/ className row = [])) as Hnm by (intros [?|[?|[?|?]]]; congruence).
  destruct (validateNationalId (nationalId row)) eqn:Hv.
  - assert ((length (nationalId row) =? 10)%nat = true) as ->.
    { apply Nat.eqb_eq. apply validateNationalId_spec in Hv as ((Hlen & _) & _).
      exact Hlen. }
    cbn [negb orb].
    destruct (decide (className row ∈ validClasses)) as [Hcl|Hcl].
    + rewrite (bool_decide_eq_true_2 _ Hcl). cbn [negb].
      repeat split; intros; try tauto; try congruence.
      * destruct (firstName row) as [|first|]; cbn [sanitize_cell];
          try reflexivity.
        destruct (lastName row) as [|last|]; cbn [sanitize_cell];
          try reflexivity.
        exfalso. eauto.
      * match goal with
        | H1 : firstName row = _, H2 : lastName row = _ |- _ => rewrite H1, H2
        end. reflexivity.
    + rewrite (bool_decide_eq_false_2 _ Hcl). cbn [negb].
      repeat split; intros; tauto || congruence.
  - rewrite orb_true_r. repeat split; intros; tauto || congruence.
Qed.

Lemma forEachRow_spec rows index expectedStudents errors :
  forEachRow rows index expectedStudents errors
  = (expectedStudents ++ kept_rows rows, errors ++ rejected_rows index rows).
Proof.
  revert index expectedStudents errors.
  induction rows as [|row rows IH]; intros index expectedStudents errors.
  - cbn. rewrite !app_nil_r. reflexivity.
  - cbn [forEachRow kept_rows rejected_rows omap list_omap].
    destruct (processRow row) as [kind|student]; rewrite IH, <- app_assoc;
      reflexivity.
Qed.

Lemma kept_rejected_length index rows :
  (length (kept_rows rows) + length (rejected_rows index rows) = length rows)%nat.
Proof.
  revert index. induction rows as [|row rows IH]; intros index; [reflexivity|].
  cbn [kept_rows rejected_rows omap list_omap length].
  destruct (processRow row); cbn [length];
    specialize (IH (S index)); unfold kept_rows in IH; lia.
Qed.

(** C8, amended.  For every non-empty parsed sheet: a row with a missing
    required field, an invalid identity number or an invalid class label,
    and also a row that passes these checks but whose name cell is not
    text (its processing throws), is recorded as one error and skipped;
    every other row is kept; the kept rows and the errors follow the row
    order.  When no row is kept, ingestion fails with the "no valid record"
    error and the stored data is unchanged; otherwise the kept rows are
    uploaded. *)
Theorem handleFileUpload_partial_success
    (excelData : list (gmap jsstring cell)) (sessionId : jsstring)
    (resp : insert_response) (db : database) :
  excelData <> [] ->
  (forall row,
      (missing_required row -> processRow row = inl RequiredFieldsIncomplete)
      /\ (~ missing_required row -> invalid_identity row ->
          processRow row = inl NationalIdNotValid)
      /\ (~ missing_required row -> ~ invalid_identity row -> invalid_class row ->
          processRow row = inl ClassNotValid)
      /\ (~ missing_required row -> ~ invalid_identity row ->
          ~ invalid_class row -> ~ text_names row ->
          processRow row = inl DataProcessingError)
      /\ (~ missing_required row -> ~ invalid_identity row ->
          ~ invalid_class row ->
          forall first last,
            firstName row = Str first -> lastName row = Str last ->
            processRow row
            = inr (NewExpectedStudent.mk (sanitizeInput first)
                     (sanitizeInput last) (nationalId row) (className row)
                     (Some false) None)))
  /\ forEachRow excelData 0 [] [] = (kept_rows excelData, rejected_rows 0 excelData)
  /\ (length (kept_rows excelData) + length (rejected_rows 0 excelData)
      = length excelData)%nat
  /\ (kept_rows excelData = [] ->
      handleFileUpload excelData sessionId resp db
      = (db, Failed (NoValidRecordFound (take 5 (rejected_rows 0 excelData)))))
  /\ (kept_rows excelData <> [] ->
      handleFileUpload excelData sessionId resp db
      = match uploadExpectedStudents (kept_rows excelData) sessionId resp db with
        | (db', Some uploadedData) =>
            (db', Uploaded uploadedData sessionId
                           (length (kept_rows excelData))
                           (length (rejected_rows 0 excelData)))
        | (db', None) => (db', Failed InsertError)
        end).
Proof.
  intros Hne.
  split; [exact processRow_cases|].
  split; [apply forEachRow_spec|].
  split; [apply kept_rejected_length|].
  pose proof (kept_rejected_length 0 excelData) as Hlen.
  assert (0 < length excelData)%nat as Hpos
      by (destruct excelData; [congruence | cbn; lia]).
  unfold handleFileUpload.
  rewrite bool_decide_eq_false_2 by exact Hne.
  rewrite forEachRow_spec. cbn [app].
  split.
  - intros Hk. rewrite Hk in *. cbn [length] in *.
    assert ((0 <? length (rejected_rows 0 excelData))%nat = true) as ->
        by (apply Nat.ltb_lt; lia).
    reflexivity.
  - intros Hk.
    assert ((length (kept_rows excelData) =? 0)%nat = false) as ->.
    { apply Nat.eqb_neq. destruct (kept_rows excelData); [congruence | cbn; lia]. }
    rewrite andb_false_r. reflexivity.
Qed.

Lemma handleFileUpload_partial_success_witness :
  sample_sheet <> []
  /\ forEachRow sample_sheet 0 [] []
     = (kept_rows sample_sheet, rejected_rows 0 sample_sheet).
Proof.
  split; [discriminate|].
  apply (handleFileUpload_partial_success sample_sheet (lit "B3")
           sample_response sample_db).
  discriminate.
Defined.

Example sample_sheet_outcome :
  kept_rows sample_sheet
  = [NewExpectedStudent.mk (lit "Neda") (lit "Sadeghi") (lit "0499370899")
       (lit "801") (Some false) None]
  /\ rejected_rows 0 sample_sheet = [(3%nat, NationalIdNotValid)].
Proof. vm_compute. split; reflexivity. Qed.

(** C8 as stated fails on a row whose first-name cell holds a number: no
    required field is missing, the identity number and the class label are
    valid, yet the row is not kept but reported as a processing error, and
    the sheet made of this row alone is refused. *)
Lemma handleFileUpload_numeric_name_counterexample :
  ~ missing_required numeric_name_row
  /\ ~ invalid_identity numeric_name_row
  /\ ~ invalid_class numeric_name_row
  /\ processRow numeric_name_row = inl DataProcessingError
  /\ handleFileUpload [numeric_name_row] (lit "B3") sample_response sample_db
     = (sample_db, Failed (NoValidRecordFound [(2%nat, DataProcessingError)])).
Proof.
  assert (processRow numeric_name_row = inl DataProcessingError) as Hp
      by (vm_compute; reflexivity).
  split; [|split; [|split; [|split; [exact Hp|]]]].
  - intros Hm. apply (proj1 (processRow_cases numeric_name_row)) in Hm.
    congruence.
  - unfold invalid_identity. vm_compute. discriminate.
  - unfold invalid_class. intros Hc. apply Hc.
    apply list_elem_of_In. vm_compute. tauto.
  - vm_compute. reflexivity.
Qed.

(** ** Properties of [sanitizeInput] and [formatPhoneNumber] *)

Lemma collapse_runs_idempotent b s :
  collapse_runs b (collapse_runs b s) = collapse_runs b s.
Proof.
  revert b. induction s as [|c s IH]; intros b; [reflexivity|].
  cbn [collapse_runs]. destruct (is_space c) eqn:Hc.
  - destruct b; [apply IH|].
    cbn [collapse_runs]. change (is_space 32) with true. cbv iota.
    f_equal. apply IH.
  - cbn [collapse_runs]. rewrite Hc. f_equal. apply IH.
Qed.

Lemma collapse_runs_snoc b s c :
  is_space c = false -> collapse_runs b (s ++ [c]) = collapse_runs b s ++ [c].
Proof.
  intros Hc. revert b. induction s as [|x s IH]; intros b.
  - cbn. rewrite Hc. reflexivity.
  - cbn [app collapse_runs]. destruct (is_space x); [destruct b|];
      rewrite IH; reflexivity.
Qed.

(** The head of what [collapse_runs true] gives is no blank. *)
Lemma collapse_runs_true_head s d :
  collapse_runs true s !! 0%nat = Some d -> is_space d = false.
Proof.
  induction s as [|c s IH]; [discriminate|].
  cbn [collapse_runs]. destruct (is_space c) eqn:Hc; [exact IH|].
  cbn. intros [= <-]. exact Hc.
Qed.

(** In what [collapse_runs] gives, a blank is a space and the unit after
    it is no blank. *)
Lemma collapse_runs_blank b s i c :
  collapse_runs b s !! i = Some c -> is_space c = true ->
  c = 32%N /\ forall d, collapse_runs b s !! S i = Some d -> is_space d = false.
Proof.
  revert b i. induction s as [|x s IH]; intros b i; [discriminate|].
  cbn [collapse_runs]. destruct (is_space x) eqn:Hx.
  - destruct b; [apply IH|].
    destruct i as [|i]; [|apply (IH true i)].
    cbn. intros [= <-] _. split; [reflexivity|].
    apply collapse_runs_true_head.
  - destruct i as [|i]; [|apply (IH false i)].
    cbn. intros [= <-] Hc. congruence.
Qed.

(** [trim_start] removes a prefix of blanks. *)
Lemma trim_start_split s :
  exists w, s = w ++ trim_start s /\ Forall (fun c => is_space c = true) w.
Proof.
  induction s as [|c s (w & Hs & Hw)]; [exists []; split; [reflexivity|constructor]|].
  cbn [trim_start]. destruct (is_space c) eqn:Hc.
  - exists (c :: w). split; [cbn; congruence | constructor; assumption].
  - exists []. split; [reflexivity | constructor].
Qed.

Lemma trim_start_idempotent s : trim_start (trim_start s) = trim_start s.
Proof.
  induction s as [|c s IH]; [reflexivity|].
  cbn [trim_start]. destruct (is_space c) eqn:Hc; [exact IH|].
  cbn [trim_start]. rewrite Hc. reflexivity.
Qed.

(** A text that [trim_start] leaves as it is: empty, or no blank first. *)
Lemma trim_start_fixed s :
  trim_start s = s <-> match s with [] => True | c :: _ => is_space c = false end.
Proof.
  destruct s as [|c s]; [tauto|]. cbn [trim_start].
  destruct (is_space c) eqn:Hc; [|tauto].
  split; [|discriminate]. intros Heq.
  destruct (trim_start_split s) as (w & Hs & _).
  apply (f_equal length) in Heq, Hs. rewrite length_app in Hs.
  cbn [length] in Heq. lia.
Qed.

Lemma trim_edges s :
  trim_start (trim s) = trim s /\ trim_start (rev (trim s)) = rev (trim s).
Proof.
  unfold trim. rewrite rev_involutive.
  split; [|apply trim_start_idempotent].
  set (u := trim_start s).
  destruct (trim_start_split (rev u)) as (w & Hu & Hw).
  apply trim_start_fixed.
  destruct (rev (trim_start (rev u))) as [|c y] eqn:Hv; [exact I|].
  assert (u = (c :: y) ++ rev w) as Hu'.
  { rewrite <- Hv, <- rev_app_distr, <- Hu, rev_involutive. reflexivity. }
  pose proof (proj1 (trim_start_fixed u) (trim_start_idempotent s)) as Hhead.
  rewrite Hu' in Hhead. exact Hhead.
Qed.

Lemma trim_fixed t :
  trim_start t = t -> trim_start (rev t) = rev t -> trim t = t.
Proof.
  intros H1 H2. unfold trim. rewrite H1, H2. apply rev_involutive.
Qed.

(** [collapse_runs false] keeps the two ends free of blanks. *)
Lemma collapse_runs_edges t :
  trim_start t = t -> trim_start (rev t) = rev t ->
  trim_start (collapse_runs false t) = collapse_runs false t
  /\ trim_start (rev (collapse_runs false t)) = rev (collapse_runs false t).
Proof.
  intros H1 H2. split; apply trim_start_fixed.
  - apply trim_start_fixed in H1. destruct t as [|c t]; [exact I|].
    cbn [collapse_runs]. rewrite H1. exact H1.
  - apply trim_start_fixed in H2.
    destruct (rev t) as [|c y] eqn:Hr.
    + apply (f_equal (@rev N)) in Hr. rewrite rev_involutive in Hr.
      subst t. exact I.
    + apply (f_equal (@rev N)) in Hr. rewrite rev_involutive in Hr.
      cbn [rev] in Hr. subst t.
      rewrite collapse_runs_snoc by exact H2.
      rewrite rev_app_distr. exact H2.
Qed.

Lemma sanitizeInput_edges s :
  trim_start (sanitizeInput s) = sanitizeInput s
  /\ trim_start (rev (sanitizeInput s)) = rev (sanitizeInput s).
Proof.
  unfold sanitizeInput. destruct (trim_edges s) as [H1 H2].
  apply collapse_runs_edges; assumption.
Qed.

Lemma rev_last_unit (r : jsstring) i c :
  r !! i = Some c -> length r = S i -> exists y, rev r = c :: y.
Proof.
  intros Hi Hlen. exists (rev (take i r)).
  rewrite <- (take_drop_middle r i c Hi) at 1.
  rewrite (drop_ge r (S i)) by lia. rewrite rev_app_distr. reflexivity.
Qed.

(** X1. [sanitizeInput] is idempotent: a sanitized text is left as it is. *)
Theorem sanitizeInput_idempotent (input : jsstring) :
  sanitizeInput (sanitizeInput input) = sanitizeInput input.
Proof.
  destruct (sanitizeInput_edges input) as [H1 H2].
  unfold sanitizeInput at 1. rewrite (trim_fixed _ H1 H2).
  unfold sanitizeInput. apply collapse_runs_idempotent.
Qed.

(** X2. A sanitized text has no blank at either end, its only blanks are
    single spaces (U+0020), each followed by a unit that is no blank. *)
Theorem sanitizeInput_shape (input : jsstring) :
  trim (sanitizeInput input) = sanitizeInput input
  /\ forall (i : nat) (c : N),
       sanitizeInput input !! i = Some c -> is_space c = true ->
       c = 32%N
       /\ exists d, sanitizeInput input !! S i = Some d /\ is_space d = false.
Proof.
  destruct (sanitizeInput_edges input) as [H1 H2].
  split; [apply trim_fixed; assumption|].
  intros i c Hi Hc.
  destruct (collapse_runs_blank false (trim input) i c Hi Hc) as [-> Hnext].
  split; [reflexivity|].
  destruct (sanitizeInput input !! S i) as [d|] eqn:Hd.
  - exists d. split; [reflexivity|]. apply Hnext. exact Hd.
  - exfalso. apply lookup_ge_None in Hd.
    apply lookup_lt_Some in Hi as Hlt.
    destruct (rev_last_unit (sanitizeInput input) i 32%N Hi ltac:(lia))
      as (y & Hy).
    apply trim_start_fixed in H2. rewrite Hy in H2. discriminate H2.
Qed.

Lemma is_digit_not_space c : is_digit c = true -> is_space c = false.
Proof.
  unfold is_digit. intros H.
  apply andb_true_iff in H as [H1 H2]. apply N.leb_le in H1, H2.
  assert (c = 48 \/ c = 49 \/ c = 50 \/ c = 51 \/ c = 52 \/ c = 53
          \/ c = 54 \/ c = 55 \/ c = 56 \/ c = 57)%N as Hc by lia.
  repeat destruct Hc as [->|Hc]; try subst c; reflexivity.
Qed.

(** [phone.replace(/\D/g, '')] keeps the digits. *)
Lemma replace_nondigit_filter s :
  replace_class_g (fun c => negb (is_digit c)) [] s
  = filter (fun c => is_digit c = true) s.
Proof.
  unfold replace_class_g.
  induction s as [|c s IH]; [reflexivity|].
  cbn [flat_map]. rewrite filter_cons, IH.
  destruct (is_digit c); cbn [negb];
    [rewrite decide_True by reflexivity | rewrite decide_False by discriminate];
    reflexivity.
Qed.

Lemma digits_of_digits s :
  Forall (fun c => is_digit c = true) (filter (fun c => is_digit c = true) s).
Proof. apply Forall_forall. intros c Hc. apply list_elem_of_filter in Hc. tauto. Qed.

Lemma digits_without_whitespace s :
  filter (fun c => is_digit c = true) (remove_whitespace s)
  = filter (fun c => is_digit c = true) s.
Proof.
  unfold remove_whitespace. apply list_filter_filter_l.
  intros c. apply is_digit_not_space.
Qed.

Lemma validatePhoneNumber_unfold phone :
  phone <> [] ->
  validatePhoneNumber phone = test_anchored phoneRegex (remove_whitespace phone).
Proof.
  intros Hne. unfold validatePhoneNumber.
  rewrite bool_decide_eq_false_2 by exact Hne.
  rewrite replace_space_filter. reflexivity.
Qed.

(** The three outcomes of [formatPhoneNumber] on a text that is not empty,
    by the digits of the text. *)
Lemma formatPhoneNumber_cases phone :
  phone <> [] ->
  let cleaned := filter (fun c => is_digit c = true) phone in
  formatPhoneNumber phone
  = if startsWith cleaned [57; 56]%N then 43%N :: cleaned
    else if startsWith cleaned [48%N] then cleaned
    else if startsWith cleaned [57%N] then 48%N :: cleaned
    else phone.
Proof.
  intros Hne cleaned. unfold formatPhoneNumber.
  rewrite bool_decide_eq_false_2 by exact Hne.
  rewrite replace_nondigit_filter. reflexivity.
Qed.

(** X3. [formatPhoneNumber] is idempotent. *)
Theorem formatPhoneNumber_idempotent (phone : jsstring) :
  formatPhoneNumber (formatPhoneNumber phone) = formatPhoneNumber phone.
Proof.
  destruct (decide (phone = [])) as [->|Hne]; [reflexivity|].
  rewrite (formatPhoneNumber_cases phone Hne). cbv zeta.
  set (cleaned := filter (fun c => is_digit c = true) phone).
  assert (filter (fun c => is_digit c = true) cleaned = cleaned) as Hcc
      by (apply filter_all, digits_of_digits).
  destruct (startsWith cleaned [57; 56]%N) eqn:H98.
  - rewrite formatPhoneNumber_cases by discriminate. cbv zeta.
    rewrite filter_cons_False by (cbn; discriminate).
    rewrite Hcc, H98. reflexivity.
  - destruct (startsWith cleaned [48%N]) eqn:H0.
    + assert (cleaned <> []) as Hc by (intros Heq; rewrite Heq in H0; discriminate).
      rewrite formatPhoneNumber_cases by exact Hc. cbv zeta.
      rewrite Hcc, H98, H0. reflexivity.
    + destruct (startsWith cleaned [57%N]) eqn:H9.
      * rewrite formatPhoneNumber_cases by discriminate. cbv zeta.
        rewrite filter_cons_True by reflexivity. rewrite Hcc. reflexivity.
      * rewrite formatPhoneNumber_cases by exact Hne. cbv zeta.
        fold cleaned. rewrite H98, H0, H9. reflexivity.
Qed.

(** A text without blanks that has the shape of a mobile number is
    accepted. *)
Lemma validatePhoneNumber_mobile_text t :
  Forall (fun c => is_space c = false) t -> iranian_mobile t ->
  validatePhoneNumber t = true.
Proof.
  intros Hns Hm.
  assert (t <> []) as Hne.
  { destruct Hm as (prefix & rest & -> & _). destruct prefix; discriminate. }
  rewrite validatePhoneNumber_unfold by exact Hne.
  unfold remove_whitespace. rewrite filter_all by exact Hns.
  apply phoneRegex_spec, Hm.
Qed.

(** X4. For an accepted phone number that is not empty: unless its text
    without blanks starts with "98", the formatted number is "+98" or "0"
    followed by "9" and nine digits, and is accepted again; when it starts
    with "98" (a number written without prefix whose second digit is 8),
    the formatted number is "+" followed by the ten digits, which the
    validator rejects. *)
Theorem formatPhoneNumber_of_valid (phone : jsstring) :
  phone <> [] -> validatePhoneNumber phone = true ->
  (startsWith (remove_whitespace phone) (lit "98") = false ->
   validatePhoneNumber (formatPhoneNumber phone) = true
   /\ exists rest,
        length rest = 9%nat /\ Forall (fun c => is_digit c = true) rest
        /\ (formatPhoneNumber phone = lit "+98" ++ 57%N :: rest
            \/ formatPhoneNumber phone = lit "0" ++ 57%N :: rest))
  /\ (startsWith (remove_whitespace phone) (lit "98") = true ->
      formatPhoneNumber phone = 43%N :: remove_whitespace phone
      /\ validatePhoneNumber (formatPhoneNumber phone) = false).
Proof.
  intros Hne Hv.
  rewrite validatePhoneNumber_unfold in Hv by exact Hne.
  apply phoneRegex_spec in Hv as (prefix & rest & Ht & Hp & Hl & HF).
  rewrite (formatPhoneNumber_cases phone Hne). cbv zeta.
  rewrite <- digits_without_whitespace, Ht, filter_app, filter_cons_True
    by reflexivity.
  rewrite (filter_all _ rest) by exact HF.
  change (lit "98") with ([57; 56]%N : jsstring).
  change (lit "+98") with ([43; 57; 56]%N : jsstring) in *.
  change (lit "0") with ([48%N] : jsstring) in *.
  assert (Forall (fun c => is_space c = false) rest) as Hns.
  { eapply Forall_impl; [exact HF|]. apply is_digit_not_space. }
  assert (forall pre, pre = [43; 57; 56]%N \/ pre = [48%N] ->
            validatePhoneNumber (pre ++ 57%N :: rest) = true) as Hok.
  { intros pre Hpre. apply validatePhoneNumber_mobile_text.
    - apply Forall_app. split; [|constructor; [reflexivity | exact Hns]].
      destruct Hpre as [-> | ->]; repeat constructor.
    - exists pre, rest. tauto. }
  destruct Hp as [->|[->| ->]].
  - (* no prefix *)
    cbn [app filter list_filter].
    destruct rest as [|d rest]; [discriminate Hl|].
    unfold startsWith. cbn [length take].
    destruct (decide (d = 56%N)) as [->|Hd].
    + split; [intros H; rewrite bool_decide_eq_true_2 in H by reflexivity;
              discriminate|].
      intros _. rewrite bool_decide_eq_true_2 by reflexivity.
      split; [reflexivity|].
      apply not_true_is_false. intros Hv.
      rewrite validatePhoneNumber_unfold in Hv by discriminate.
      apply phoneRegex_spec in Hv as (prefix & rest' & Ht' & Hp' & Hl' & _).
      unfold remove_whitespace in Ht'.
      rewrite (filter_all _ (43%N :: 57%N :: 56%N :: rest)) in Ht'
        by (repeat (constructor; [reflexivity|]); inversion Hns; assumption).
      apply (f_equal length) in Ht' as Hlen. rewrite length_app in Hlen.
      cbn [length] in Hlen, Hl.
      destruct Hp' as [->|[->| ->]]; cbn in Ht', Hlen; try discriminate; lia.
    + rewrite (bool_decide_eq_false_2 (57%N :: d :: take 0 rest = [57; 56]%N))
        by (rewrite take_0; congruence).
      split; [|discriminate]. intros _.
      rewrite bool_decide_eq_false_2 by discriminate.
      rewrite bool_decide_eq_true_2 by reflexivity.
      split; [apply (Hok [48%N]); tauto|].
      exists (d :: rest). split; [exact Hl|]. split; [exact HF|].
      right. reflexivity.
  - (* +98 *)
    rewrite filter_cons_False by (cbn; discriminate).
    rewrite !filter_cons_True by reflexivity. rewrite filter_nil.
    unfold startsWith. cbn [length take app].
    rewrite (bool_decide_eq_true_2 ([57; 56]%N = [57; 56]%N)) by reflexivity.
    split; [intros _ | intros H; apply bool_decide_eq_true in H; discriminate H].
    split; [apply (Hok [43; 57; 56]%N); tauto|].
    exists rest. split; [exact Hl|]. split; [exact HF|]. left. reflexivity.
  - (* 0 *)
    rewrite filter_cons_True by reflexivity. rewrite filter_nil.
    unfold startsWith. cbn [length take app].
    rewrite (bool_decide_eq_false_2 ([48; 57]%N = [57; 56]%N)) by discriminate.
    rewrite (bool_decide_eq_true_2 ([48%N] = [48%N])) by reflexivity.
    split; [intros _ | intros H; discriminate H].
    split; [apply (Hok [48%N]); tauto|].
    exists rest. split; [exact Hl|]. split; [exact HF|]. right. reflexivity.
Qed.

Lemma formatPhoneNumber_of_valid_witness :
  lit "0912 345 6789" <> []
  /\ validatePhoneNumber (lit "0912 345 6789") = true
  /\ validatePhoneNumber (formatPhoneNumber (lit "0912 345 6789")) = true.
Proof.
  split; [discriminate|]. split; [reflexivity|].
  apply (proj1 (formatPhoneNumber_of_valid (lit "0912 345 6789")
                  ltac:(discriminate) eq_refl)).
  reflexivity.
Defined.

(** The two outcomes on sample numbers. *)
Example formatPhoneNumber_samples :
  formatPhoneNumber (lit "912 345 6789") = lit "09123456789"
  /\ formatPhoneNumber (lit "+98 912 345 6789") = lit "+989123456789"
  /\ validatePhoneNumber (lit "9812345678") = true
  /\ formatPhoneNumber (lit "9812345678") = lit "+9812345678"
  /\ validatePhoneNumber (lit "+9812345678") = false.
Proof. vm_compute. repeat split; reflexivity. Qed.

(** ** Properties of [StudentService] *)


(** With distinct identity numbers at most one row matches. *)
Lemma checkNationalIdExists_unique nationalId db :
  NoDup (Student.national_id <$> students db) ->
  checkNationalIdExists nationalId db
  = bool_decide (nationalId ∈ (Student.national_id <$> students db)).
Proof.
  unfold checkNationalIdExists. generalize (students db) as l.
  induction l as [|s l IH]; intros Hnd.
  - cbn. rewrite bool_decide_eq_false_2 by apply not_elem_of_nil. reflexivity.
  - cbn [fmap list_fmap] in *. apply NoDup_cons in Hnd as [Hs Hnd].
    rewrite filter_cons. destruct (decide (Student.national_id s = nationalId))
      as [Heq|Hne].
    + rewrite filter_none.
      * rewrite bool_decide_eq_true_2; [reflexivity|]. rewrite Heq. left.
      * apply Forall_forall. intros x Hx Hxn. apply Hs. rewrite Heq, <- Hxn.
        apply list_elem_of_fmap_2, Hx.
    + rewrite (IH Hnd). apply bool_decide_ext. rewrite elem_of_cons.
      split; [tauto|]. intros [?|?]; [congruence | assumption].
Qed.

(** X5. With distinct identity numbers in table [students] (its unique
    constraint), [checkNationalIdExists] answers whether the number is
    stored, and so agrees with the set of registered numbers the
    reconciliation uses. *)
Theorem checkNationalIdExists_registered (nationalId : jsstring) (db : database) :
  NoDup (Student.national_id <$> students db) ->
  (checkNationalIdExists nationalId db = true
   <-> nationalId ∈ (Student.national_id <$> students db))
  /\ checkNationalIdExists nationalId db
     = bool_decide (nationalId ∈ registeredNationalIds db).
Proof.
  intros Hnd. rewrite (checkNationalIdExists_unique _ _ Hnd).
  split; [apply bool_decide_eq_true|].
  apply bool_decide_ext. unfold registeredNationalIds, getAllStudents.
  rewrite elem_of_list_to_set, order_desc_perm. reflexivity.
Qed.

Lemma sample_db_unique : NoDup (Student.national_id <$> students sample_db).
Proof. cbn. apply NoDup_singleton. Qed.

Lemma checkNationalIdExists_registered_witness :
  NoDup (Student.national_id <$> students sample_db)
  /\ checkNationalIdExists (lit "0010010011") sample_db
     = bool_decide (lit "0010010011" ∈ registeredNationalIds sample_db).
Proof.
  split; [exact sample_db_unique|].
  apply (checkNationalIdExists_registered (lit "0010010011") sample_db).
  exact sample_db_unique.
Defined.

(** *** Class statistics *)

Lemma countClass_lookup stats k c :
  k ∉ object_prototype_names ->
  stats !! k <> Some Text ->
  countClass stats k !! c
  = if decide (c = k)
    then Some (Count (match stats !! k with Some (Count n) => n + 1 | _ => 1 end))
    else stats !! c.
Proof.
  intros Hk Ht. unfold countClass.
  destruct (stats !! k) as [[n|]|] eqn:Hs.
  - destruct (decide (c = k)) as [->|Hne];
      [apply lookup_insert_eq | apply lookup_insert_ne; congruence].
  - exfalso. apply Ht. reflexivity.
  - rewrite bool_decide_eq_false_2 by exact Hk.
    destruct (decide (c = k)) as [->|Hne];
      [apply lookup_insert_eq | apply lookup_insert_ne; congruence].
Qed.

Lemma class_count_fold (l : list Student.t) (stats : gmap jsstring stat)
    (base : jsstring -> nat) :
  Forall (fun s => Student.class_name s ∉ object_prototype_names) l ->
  (forall c, stats !! c = match base c with O => None | n => Some (Count n) end) ->
  forall c,
    fold_left (fun stats student => countClass stats (Student.class_name student))
              l stats !! c
    = match (base c + length (filter (fun s => Student.class_name s = c) l))%nat with
      | O => None
      | n => Some (Count n)
      end.
Proof.
  intros Hl. revert stats base.
  induction Hl as [|s l Hs _ IH]; intros stats base Hinv c.
  - cbn. rewrite Nat.add_0_r. apply Hinv.
  - cbn [fold_left].
    rewrite (IH _ (fun c => if decide (c = Student.class_name s)
                            then S (base c) else base c)).
    + rewrite filter_cons.
      destruct (decide (Student.class_name s = c)) as [Heq|Hne].
      * rewrite decide_True by congruence. cbn [length].
        replace (S (base c) + length (filter (fun s0 => Student.class_name s0 = c) l))%nat
          with (base c + S (length (filter (fun s0 => Student.class_name s0 = c) l)))%nat
          by lia.
        reflexivity.
      * rewrite decide_False by congruence. reflexivity.
    + intros c'. rewrite countClass_lookup.
      * destruct (decide (c' = Student.class_name s)) as [->|Hne];
          [|apply Hinv].
        rewrite Hinv. destruct (base (Student.class_name s)) as [|n];
          [reflexivity|]. do 2 f_equal. lia.
      * exact Hs.
      * rewrite Hinv. destruct (base (Student.class_name s));
          discriminate.
Qed.

(** X6. When no class name is a property name that objects inherit (the
    ten class labels are none), the statistics hold for every class the
    number of students [getStudentsByClass] returns, and hold no entry for
    a class without students. *)
Theorem getClassStatistics_counts (db : database) (className : jsstring) :
  Forall (fun s => Student.class_name s ∉ object_prototype_names) (students db) ->
  getClassStatistics db !! className
  = match length (getStudentsByClass className db) with
    | O => None
    | n => Some (Count n)
    end.
Proof.
  intros Hcls. unfold getClassStatistics, getStudentsByClass.
  rewrite (class_count_fold _ ∅ (fun _ => O) Hcls)
    by (intros c; apply lookup_empty).
  rewrite (Permutation_length (order_desc_perm _ _)). reflexivity.
Qed.

Lemma getClassStatistics_counts_witness :
  Forall (fun s => Student.class_name s ∉ object_prototype_names)
         (students sample_db)
  /\ getClassStatistics sample_db !! lit "701" = Some (Count 1).
Proof.
  assert (Forall (fun s => Student.class_name s ∉ object_prototype_names)
                 (students sample_db)) as H.
  { repeat constructor. intros Hin. apply list_elem_of_In in Hin.
    vm_compute in Hin. intuition discriminate. }
  split; [exact H|].
  exact (getClassStatistics_counts sample_db (lit "701") H).
Defined.

(** A class named like an inherited property gets a text, not a count. *)
Example getClassStatistics_inherited_name :
  getClassStatistics
    (mkdb [sample_student 1 (lit "0010010011") (lit "toString") 100] [])
    !! lit "toString" = Some Text.
Proof. vm_compute. reflexivity. Qed.

(** *** Registration *)

(** X7. When the backend accepts the insert of a student whose identity
    number is not stored yet, [createStudent] returns the stored row with
    the fields sent, appends it to table [students] and leaves the
    expected students alone; afterwards the number is found by
    [checkNationalIdExists], the row is returned by [getAllStudents] and
    by [getStudentsByClass] for its class, and the identity numbers are
    still distinct. *)
Theorem createStudent_found (student : NewStudent.t) (updated_at : Z)
    (resp : insert_response) (db : database) :
  accepted resp = true ->
  NoDup (Student.national_id <$> students db) ->
  NewStudent.national_id student ∉ (Student.national_id <$> students db) ->
  let row := stored_student (now resp) (first_id resp) updated_at student in
  let db' := (createStudent student updated_at resp db).1 in
  (createStudent student updated_at resp db).2 = Some row
  /\ students db' = students db ++ [row]
  /\ expected_students db' = expected_students db
  /\ NoDup (Student.national_id <$> students db')
  /\ checkNationalIdExists (NewStudent.national_id student) db' = true
  /\ row ∈ getAllStudents db'
  /\ row ∈ getStudentsByClass (NewStudent.class_name student) db'.
Proof.
  intros Hacc Hnd Hfresh row db'.
  assert (createStudent student updated_at resp db
          = (mkdb (students db ++ [row]) (expected_students db), Some row)) as Hc.
  { unfold createStudent, insert_student.
    rewrite Hacc, (bool_decide_eq_true_2 _ Hfresh). reflexivity. }
  subst db'. rewrite Hc. cbn [fst snd students expected_students].
  assert (NoDup (Student.national_id <$> students db ++ [row])) as Hnd'.
  { rewrite fmap_app. apply NoDup_app. split; [exact Hnd|].
    split; [|apply NoDup_singleton].
    intros x Hx Hx'. apply list_elem_of_singleton in Hx'. subst x.
    exact (Hfresh Hx). }
  split; [reflexivity|]. split; [reflexivity|]. split; [reflexivity|].
  split; [exact Hnd'|]. split; [|split].
  - rewrite checkNationalIdExists_unique by exact Hnd'.
    apply bool_decide_eq_true_2. cbn [students]. rewrite fmap_app.
    apply elem_of_app. right. left.
  - unfold getAllStudents. rewrite order_desc_perm. cbn [students].
    apply elem_of_app. right. left.
  - unfold getStudentsByClass. rewrite order_desc_perm. cbn [students].
    apply list_elem_of_filter. split; [reflexivity|].
    apply elem_of_app. right. left.
Qed.

Lemma createStudent_found_witness :
  accepted sample_response = true
  /\ NoDup (Student.national_id <$> students sample_db)
  /\ (NewStudent.national_id sample_form
        ∉ (Student.national_id <$> students sample_db))
  /\ checkNationalIdExists (NewStudent.national_id sample_form)
       (createStudent sample_form 500 sample_response sample_db).1 = true.
Proof.
  assert (NewStudent.national_id sample_form
            ∉ (Student.national_id <$> students sample_db)) as Hfresh.
  { intros Hin. apply list_elem_of_In in Hin. vm_compute in Hin.
    intuition discriminate. }
  split; [reflexivity|]. split; [exact sample_db_unique|].
  split; [exact Hfresh|].
  apply (createStudent_found sample_form 500 sample_response sample_db
           eq_refl sample_db_unique Hfresh).
Defined.

(** ** Properties of the comparison *)

Lemma updateRegistrationStatus_rows sessionId db :
  updateRegistrationStatus sessionId db
  = mkdb (students db)
         (apply_row (registrationUpdates sessionId db) <$> expected_students db).
Proof. rewrite updateRegistrationStatus_updates, applyUpdates_fmap. reflexivity. Qed.


(** With distinct row identifiers, a row outside the batch is left as it
    is by the updates of a run on a batch identifier that is not empty. *)
Lemma apply_row_other_batch sessionId db r :
  sessionId <> [] ->
  NoDup (ExpectedStudent.id <$> expected_students db) ->
  r ∈ expected_students db ->
  ExpectedStudent.upload_session_id r <> Some sessionId ->
  apply_row (registrationUpdates sessionId db) r = r.
Proof.
  intros Hs Hnd Hr Hother.
  rewrite apply_row_last_flag, last_flag_None; [reflexivity|].
  unfold registrationUpdates. rewrite <- list_fmap_compose.
  intros Hin. apply list_elem_of_fmap in Hin as (e & Heq & He).
  cbn [compose fst] in Heq. apply Hother.
  rewrite <- (getExpectedStudents_session sessionId db e Hs He).
  f_equal. apply (NoDup_id_inj (expected_students db)); try assumption.
  eapply getExpectedStudents_elem, He.
Qed.



(** X9. Whatever the current session, with distinct row identifiers
    [handleCompareData] leaves the registered students and every
    expected-student row of another batch unchanged: the guard on the
    session keeps the unfiltered query out of reach. *)
Theorem handleCompareData_frame (currentSessionId : option jsstring)
    (db : database) :
  NoDup (ExpectedStudent.id <$> expected_students db) ->
  students (handleCompareData currentSessionId db).1 = students db
  /\ forall (i : nat) (r : ExpectedStudent.t),
       expected_students db !! i = Some r ->
       ExpectedStudent.upload_session_id r <> currentSessionId ->
       expected_students (handleCompareData currentSessionId db).1 !! i = Some r.
Proof.
  intros Hnd. unfold handleCompareData.
  destruct currentSessionId as [sessionId|]; [|cbn; tauto].
  destruct (decide (sessionId = [])) as [->|Hs].
  { rewrite bool_decide_eq_true_2 by reflexivity. cbn. tauto. }
  rewrite bool_decide_eq_false_2 by exact Hs. cbn [fst].
  rewrite updateRegistrationStatus_rows. cbn [students expected_students].
  split; [reflexivity|]. intros i r Hi Hother.
  rewrite list_lookup_fmap, Hi. cbn. f_equal.
  apply apply_row_other_batch; try assumption.
  eapply list_elem_of_lookup_2, Hi.
Qed.

Lemma handleCompareData_frame_witness :
  NoDup (ExpectedStudent.id <$> expected_students sample_db)
  /\ students (handleCompareData (Some (lit "B1")) sample_db).1
     = students sample_db.
Proof.
  split; [exact sample_db_NoDup|].
  apply (handleCompareData_frame (Some (lit "B1")) sample_db sample_db_NoDup).
Defined.

(** X10. Edge cases of the comparison: without any registered student
    every expected student of the batch is unregistered, and when every
    expected student of the batch is registered the list is empty. *)
Theorem getUnregisteredStudents_edges (sessionId : jsstring) (db : database) :
  (students db = [] ->
   getUnregisteredStudents sessionId db = getExpectedStudents (Some sessionId) db)
  /\ (Forall (registered_in db) (getExpectedStudents (Some sessionId) db) ->
      getUnregisteredStudents sessionId db = []).
Proof.
  unfold getUnregisteredStudents. split.
  - intros Hst. apply filter_all, Forall_forall. intros e _.
    rewrite registeredNationalIds_spec. unfold registered_in. rewrite Hst.
    apply not_elem_of_nil.
  - intros Hall. apply filter_none.
    eapply Forall_impl; [exact Hall|]. intros e He Hn. apply Hn.
    apply registeredNationalIds_spec, He.
Qed.

(** ** Properties of an accepted upload *)

(** What a kept row carries. *)
Lemma processRow_kept row student :
  processRow row = inr student ->
  validateNationalId (NewExpectedStudent.national_id student) = true
  /\ isValidClass (NewExpectedStudent.class_name student) = true
  /\ NewExpectedStudent.is_registered student = Some false
  /\ NewExpectedStudent.national_id student = nationalId row
  /\ exists first last,
       firstName row = Str first /\ lastName row = Str last
       /\ NewExpectedStudent.first_name student = sanitizeInput first
       /\ NewExpectedStudent.last_name student = sanitizeInput last.
Proof.
  unfold processRow.
  destruct (negb (truthy (firstName row)) || negb (truthy (lastName row))
            || bool_decide (nationalId row = [])
            || bool_decide (className row = [])); [discriminate|].
  destruct (validateNationalId (nationalId row)) eqn:Hv;
    [|rewrite orb_true_r; discriminate].
  destruct (negb (length (nationalId row) =? 10)%nat); [discriminate|].
  cbn [negb orb].
  destruct (isValidClass (className row)) eqn:Hc; [|discriminate].
  cbn [negb].
  destruct (firstName row) as [|first|]; try discriminate.
  destruct (lastName row) as [|last|]; try discriminate.
  cbn [sanitize_cell]. intros [= <-].
  cbn [NewExpectedStudent.national_id NewExpectedStudent.class_name
       NewExpectedStudent.is_registered NewExpectedStudent.first_name
       NewExpectedStudent.last_name].
  split; [exact Hv|]. split; [exact Hc|]. split; [reflexivity|].
  split; [reflexivity|]. exists first, last. tauto.
Qed.

Lemma kept_rows_elem rows student :
  student ∈ kept_rows rows -> exists row, row ∈ rows /\ processRow row = inr student.
Proof.
  unfold kept_rows. rewrite list_elem_of_omap. intros (row & Hrow & Hs).
  exists row. split; [exact Hrow|].
  destruct (processRow row); [discriminate | congruence].
Qed.

(** A property of the stored form of every inserted row holds of all the
    rows an insert returns. *)
Lemma assign_ids_Forall (P : ExpectedStudent.t -> Prop) now i fs :
  (forall j f, f ∈ fs -> P (stored now j f)) -> Forall P (assign_ids now i fs).
Proof.
  revert i. induction fs as [|f fs IH]; intros i Hf; [constructor|].
  cbn [assign_ids]. constructor.
  - apply Hf. left.
  - apply IH. intros j g Hg. apply Hf. right. exact Hg.
Qed.

Lemma assign_ids_length now i fs : length (assign_ids now i fs) = length fs.
Proof.
  revert i. induction fs as [|f fs IH]; intros i; [reflexivity|].
  cbn [assign_ids length]. rewrite IH. reflexivity.
Qed.

(** X11. When [handleFileUpload] reports an upload, it is under the given
    session, at least one row was kept, the kept and the skipped rows add
    up to the rows of the sheet, and every stored row of the upload has a
    valid identity number, a valid class label, the flag false and the
    session identifier; the registered students are unchanged, and for a
    session identifier that is not empty [getExpectedStudents] returns
    the uploaded rows, up to their order. *)
Theorem handleFileUpload_uploaded
    (excelData : list (gmap jsstring cell)) (sessionId : jsstring)
    (resp : insert_response) (db db' : database)
    (uploadedData : list ExpectedStudent.t) (sessionId' : jsstring)
    (uploaded errors : nat) :
  handleFileUpload excelData sessionId resp db
  = (db', Uploaded uploadedData sessionId' uploaded errors) ->
  sessionId' = sessionId
  /\ uploaded = length uploadedData
  /\ (0 < uploaded)%nat
  /\ (uploaded + errors = length excelData)%nat
  /\ Forall (fun r =>
               validateNationalId (ExpectedStudent.national_id r) = true
               /\ isValidClass (ExpectedStudent.class_name r) = true
               /\ ExpectedStudent.is_registered r = false
               /\ ExpectedStudent.upload_session_id r = Some sessionId)
            uploadedData
  /\ students db' = students db
  /\ (sessionId <> [] -> getExpectedStudents (Some sessionId) db' ≡ₚ uploadedData).
Proof.
  unfold handleFileUpload.
  destruct (bool_decide (excelData = [])) eqn:He; [discriminate|].
  apply bool_decide_eq_false in He.
  rewrite forEachRow_spec. cbn [app].
  pose proof (kept_rejected_length 0 excelData) as Hlen.
  assert (0 < length excelData)%nat as Hpos
      by (destruct excelData; [congruence | cbn; lia]).
  destruct ((0 <? length (rejected_rows 0 excelData))%nat
            && (length (kept_rows excelData) =? 0)%nat) eqn:Hnone;
    [discriminate|].
  assert (0 < length (kept_rows excelData))%nat as Hkept.
  { apply andb_false_iff in Hnone as [H|H].
    - apply Nat.ltb_ge in H. lia.
    - apply Nat.eqb_neq in H. lia. }
  unfold uploadExpectedStudents, insert_expected.
  destruct (accepted resp); [|discriminate].
  cbn [clearPreviousData students expected_students].
  intros [= <- <- <- <- <-].
  rewrite assign_ids_length, length_fmap.
  assert (Forall (fun r => ExpectedStudent.upload_session_id r = Some sessionId)
                 (assign_ids (now resp) (first_id resp)
                    (with_session sessionId <$> kept_rows excelData))) as Hsid.
  { apply assign_ids_Forall. intros j f Hf.
    apply list_elem_of_fmap in Hf as (g & -> & _). reflexivity. }
  split; [reflexivity|]. split; [reflexivity|]. split; [exact Hkept|].
  split; [exact Hlen|]. split; [|split; [reflexivity|]].
  - apply assign_ids_Forall. intros j f Hf.
    apply list_elem_of_fmap in Hf as (g & -> & Hg).
    apply kept_rows_elem in Hg as (row & _ & Hrow).
    apply processRow_kept in Hrow as (Hv & Hc & Hr & _).
    cbn [stored with_session ExpectedStudent.national_id
         ExpectedStudent.class_name ExpectedStudent.is_registered
         ExpectedStudent.upload_session_id NewExpectedStudent.national_id
         NewExpectedStudent.class_name NewExpectedStudent.is_registered
         NewExpectedStudent.upload_session_id].
    rewrite Hr. cbn [default]. tauto.
  - intros Hs. unfold getExpectedStudents. cbn [expected_students].
    rewrite bool_decide_eq_false_2 by exact Hs.
    rewrite order_desc_perm, filter_app, (filter_all _ _ Hsid).
    rewrite filter_none; [reflexivity|].
    unfold delete_session. apply Forall_forall. intros r Hr.
    apply list_elem_of_filter in Hr. tauto.
Qed.

Lemma handleFileUpload_uploaded_witness :
  exists db' data,
    handleFileUpload sample_sheet (lit "B3") sample_response sample_db
    = (db', Uploaded data (lit "B3") 1 1)
    /\ students db' = students sample_db.
Proof.
  eexists _, _. split; [vm_compute; reflexivity|].
  eapply (handleFileUpload_uploaded sample_sheet (lit "B3") sample_response
            sample_db).
  vm_compute. reflexivity.
Defined.

(** ** Properties of the registration form *)

Import StudentForm.

Lemma error_step_empty (c : bool) (k : jsstring) (e : form_error)
    (m : gmap jsstring form_error) :
  (if c then <[k := e]> m else m) = ∅ <-> c = false /\ m = ∅.
Proof.
  destruct c.
  - split; [intros H; exfalso; exact (insert_non_empty _ _ _ H)|].
    intros [? _]. discriminate.
  - tauto.
Qed.

Lemma sanitizeInput_nonempty s : trim s <> [] -> sanitizeInput s <> [].
Proof.
  intros Hne. unfold sanitizeInput.
  destruct (trim_edges s) as [H1 _]. apply trim_start_fixed in H1.
  destruct (trim s) as [|c t]; [congruence|].
  cbn [collapse_runs]. rewrite H1. discriminate.
Qed.

Lemma trim_no_blank s : Forall (fun c => is_space c = false) s -> trim s = s.
Proof.
  intros Hs. apply trim_fixed; apply trim_start_fixed.
  - destruct Hs; [exact I | assumption].
  - apply Forall_rev in Hs. destruct Hs; [exact I | assumption].
Qed.

Lemma validateForm_no_error (formData : NewStudent.t) (queryAnswers : bool)
    (db : database) :
  (validateForm formData queryAnswers db).1 = ∅
  <-> trim (NewStudent.first_name formData) <> []
      /\ trim (NewStudent.last_name formData) <> []
      /\ trim (NewStudent.father_name formData) <> []
      /\ validateNationalId (NewStudent.national_id formData) = true
      /\ (queryAnswers = true ->
          checkNationalIdExists (NewStudent.national_id formData) db = false)
      /\ NewStudent.class_name formData <> []
      /\ phone_rejected (NewStudent.father_phone formData) = false
      /\ phone_rejected (NewStudent.mother_phone formData) = false
      /\ phone_rejected (NewStudent.student_phone formData) = false.
Proof.
  unfold validateForm. cbv zeta. cbn [fst].
  match goal with
  | |- (if bool_decide (?m !! _ = None) then _ else _) = ∅ <-> _ =>
      set (errors := m)
  end.
  assert ((if bool_decide (errors !! lit "national_id" = None)
           then (if queryAnswers
                 then (if checkNationalIdExists
                            (NewStudent.national_id formData) db
                       then <[lit "national_id" := AlreadyRegistered]> errors
                       else errors)
                 else errors)
           else errors) = ∅
          <-> (queryAnswers = true ->
               checkNationalIdExists (NewStudent.national_id formData) db = false)
              /\ errors = ∅) as ->.
  { destruct (bool_decide (errors !! lit "national_id" = None)) eqn:Hl.
    - destruct queryAnswers.
      + rewrite error_step_empty. tauto.
      + split; [intros He; split; [discriminate | exact He] | tauto].
    - split; [|tauto]. intros He. rewrite He, lookup_empty in Hl.
      rewrite bool_decide_eq_true_2 in Hl by reflexivity. discriminate. }
  subst errors. rewrite !error_step_empty.
  assert (forall m : gmap jsstring form_error,
             (if bool_decide (trim (NewStudent.national_id formData) = [])
              then <[lit "national_id" := Required]> m
              else if negb (validateNationalId (NewStudent.national_id formData))
                   then <[lit "national_id" := NotValid]> m else m) = ∅
             <-> validateNationalId (NewStudent.national_id formData) = true
                 /\ m = ∅) as Hnid.
  { intros m.
    destruct (decide (trim (NewStudent.national_id formData) = [])) as [Ht|Ht].
    - rewrite bool_decide_eq_true_2 by exact Ht.
      split; [intros H; exfalso; exact (insert_non_empty _ _ _ H)|].
      intros [Hv _]. exfalso.
      apply validateNationalId_spec in Hv as ((Hlen & Hd) & _).
      rewrite trim_no_blank in Ht.
      + rewrite Ht in Hlen. discriminate Hlen.
      + eapply Forall_impl; [exact Hd|]. apply is_digit_not_space.
    - rewrite bool_decide_eq_false_2 by exact Ht.
      rewrite error_step_empty, negb_false_iff. reflexivity. }
  rewrite Hnid, !error_step_empty, !bool_decide_eq_false.
  tauto.
Qed.

(** X12. [validateForm] accepts a form exactly when the three names are
    not blank, the identity number is valid, a class is given (any text
    that is not empty: the label is not checked against the list of
    classes), each phone number is absent, empty or valid, and, when the
    backend answers the existence query, the identity number is not
    stored yet.  When the query fails the error is only logged: a form
    that passes the other checks is accepted even though its identity
    number is stored already. *)
Theorem validateForm_accepts (formData : NewStudent.t) (queryAnswers : bool)
    (db : database) :
  ((validateForm formData queryAnswers db).2 = true
   <-> trim (NewStudent.first_name formData) <> []
       /\ trim (NewStudent.last_name formData) <> []
       /\ trim (NewStudent.father_name formData) <> []
       /\ validateNationalId (NewStudent.national_id formData) = true
       /\ (queryAnswers = true ->
           checkNationalIdExists (NewStudent.national_id formData) db = false)
       /\ NewStudent.class_name formData <> []
       /\ phone_rejected (NewStudent.father_phone formData) = false
       /\ phone_rejected (NewStudent.mother_phone formData) = false
       /\ phone_rejected (NewStudent.student_phone formData) = false)
  /\ ((validateForm formData true db).2 = true ->
      (validateForm formData false db).2 = true).
Proof.
  assert (forall q d,
             (validateForm formData q d).2 = true
             <-> (validateForm formData q d).1 = ∅) as Hbool.
  { intros q d. unfold validateForm. cbv zeta. cbn [fst snd].
    apply bool_decide_eq_true. }
  split; [rewrite Hbool; apply validateForm_no_error|].
  rewrite !Hbool, !validateForm_no_error. tauto.
Qed.

Example sample_form_accepted :
  (validateForm sample_form true sample_db).2 = true
  /\ NewStudent.first_name (sanitizedData sample_form) = lit "Neda"
  /\ NewStudent.father_name (sanitizedData sample_form) = lit "Ali Reza"
  /\ NewStudent.father_phone (sanitizedData sample_form) = Some (lit "09123456789")
  /\ NewStudent.student_phone (sanitizedData sample_form) = Some [].
Proof. vm_compute. repeat split; reflexivity. Qed.

(** A form with a stored identity number is turned down when the query
    answers and accepted by [validateForm] when it fails; the insert is
    then refused by the backend and nothing is stored. *)
Example stored_identity_resubmitted :
  (validateForm resubmitted_form true registered_db).1
  = {[ lit "national_id" := AlreadyRegistered ]}
  /\ (validateForm resubmitted_form false registered_db).2 = true
  /\ handleSubmit resubmitted_form false 500 sample_response registered_db
     = (registered_db, RegistrationFailed).
Proof. vm_compute. repeat split; reflexivity. Qed.

(** X13. [handleSubmit] keeps the table of registered students sound: when
    the stored identity numbers are distinct and valid they still are
    afterwards, whatever the form, whether or not the existence query is
    answered, and whatever the backend decides about the insert (the
    column is [UNIQUE]: a stored number is refused by the insert itself);
    the expected students are not touched.  A form whose identity number
    is stored already changes nothing and is never reported as
    registered.  A student it registers is the one new row; it carries
    the identity number of the form, which was not stored before, and the
    sanitized names, none of which is empty. *)
Theorem handleSubmit_keeps_valid (formData : NewStudent.t)
    (queryAnswers : bool) (updated_at : Z) (resp : insert_response)
    (db : database) :
  NoDup (Student.national_id <$> students db) ->
  Forall (fun s => validateNationalId (Student.national_id s) = true)
         (students db) ->
  let result := handleSubmit formData queryAnswers updated_at resp db in
  NoDup (Student.national_id <$> students result.1)
  /\ Forall (fun s => validateNationalId (Student.national_id s) = true)
            (students result.1)
  /\ expected_students result.1 = expected_students db
  /\ (forall errors,
        result.2 = FormErrors errors -> errors <> ∅ /\ result.1 = db)
  /\ (result.2 = RegistrationFailed -> result.1 = db)
  /\ (NewStudent.national_id formData ∈ (Student.national_id <$> students db) ->
      result.1 = db /\ forall student, result.2 <> Registered student)
  /\ (forall student,
        result.2 = Registered student ->
        students result.1 = students db ++ [student]
        /\ Student.national_id student = NewStudent.national_id formData
        /\ (Student.national_id student
              ∉ (Student.national_id <$> students db))
        /\ Student.first_name student
           = sanitizeInput (NewStudent.first_name formData)
        /\ Student.last_name student
           = sanitizeInput (NewStudent.last_name formData)
        /\ Student.father_name student
           = sanitizeInput (NewStudent.father_name formData)
        /\ Student.first_name student <> []
        /\ Student.last_name student <> []
        /\ Student.father_name student <> []).
Proof.
  intros Hnd Hvalid result. subst result. unfold handleSubmit.
  pose proof (validateForm_no_error formData queryAnswers db) as Hform.
  assert ((validateForm formData queryAnswers db).2
          = bool_decide ((validateForm formData queryAnswers db).1 = ∅)) as Hbool
      by reflexivity.
  destruct (validateForm formData queryAnswers db) as [errors isValid].
  cbn [fst snd] in Hform, Hbool. subst isValid.
  destruct (decide (errors = ∅)) as [He|He].
  2:{ rewrite bool_decide_eq_false_2 by exact He. cbn [negb fst snd].
      split; [exact Hnd|]. split; [exact Hvalid|]. split; [reflexivity|].
      split; [intros ? [= <-]; tauto|]. split; [reflexivity|].
      split; [|discriminate]. intros _. split; [reflexivity | discriminate]. }
  rewrite bool_decide_eq_true_2 by exact He. cbn [negb].
  apply Hform in He as (Hf & Hl & Hfa & Hv & _).
  unfold createStudent, insert_student.
  change (NewStudent.national_id (sanitizedData formData))
    with (NewStudent.national_id formData).
  destruct (accepted resp
            && bool_decide (NewStudent.national_id formData
                              ∉ (Student.national_id <$> students db))) eqn:Hins;
    cbn [fst snd students expected_students].
  2:{ split; [exact Hnd|]. split; [exact Hvalid|]. split; [reflexivity|].
      split; [discriminate|]. split; [reflexivity|].
      split; [|discriminate]. intros _. split; [reflexivity | discriminate]. }
  apply andb_true_iff in Hins as [_ Hfresh].
  apply bool_decide_eq_true in Hfresh.
  split; [|split; [|split; [reflexivity|split; [discriminate|split;
    [discriminate|split]]]]].
  - rewrite fmap_app. apply NoDup_app. split; [exact Hnd|].
    split; [|apply NoDup_singleton].
    intros x Hx Hx'. apply list_elem_of_singleton in Hx'. subst x.
    exact (Hfresh Hx).
  - apply Forall_app. split; [exact Hvalid|]. constructor; [exact Hv|constructor].
  - intros Hin. exfalso. exact (Hfresh Hin).
  - intros student [= <-].
    cbn [stored_student sanitizedData Student.national_id Student.first_name
         Student.last_name Student.father_name NewStudent.national_id
         NewStudent.first_name NewStudent.last_name NewStudent.father_name].
    repeat split; try reflexivity; try exact Hfresh;
      apply sanitizeInput_nonempty; assumption.
Qed.

Lemma registered_db_sound :
  NoDup (Student.national_id <$> students registered_db)
  /\ Forall (fun s => validateNationalId (Student.national_id s) = true)
            (students registered_db).
Proof.
  split; [apply NoDup_singleton|]. constructor; [reflexivity | constructor].
Qed.

Lemma handleSubmit_keeps_valid_witness :
  NoDup (Student.national_id <$> students registered_db)
  /\ Forall (fun s => validateNationalId (Student.national_id s) = true)
            (students registered_db)
  /\ NoDup (Student.national_id
              <$> students (handleSubmit sample_form false 500 sample_response
                              registered_db).1).
Proof.
  split; [apply registered_db_sound|]. split; [apply registered_db_sound|].
  apply (handleSubmit_keeps_valid sample_form false 500 sample_response
           registered_db);
    apply registered_db_sound.
Defined.

Example sample_form_registered :
  Student.national_id
    <$> students (handleSubmit sample_form true 500 sample_response
                    registered_db).1
  = [lit "0010010017"; lit "0499370899"].
Proof. vm_compute. reflexivity. Qed.

(** ** Properties of the admin session *)

Import AuthContext.

(** X14. [login] succeeds exactly with the administrator's name and
    password when the session can be written to the storage; when the
    write throws, or with other credentials, it returns false and leaves
    the state as it was.  After a successful login at time [t], a provider
    mounted at time [now] over the same storage is authenticated as
    "admin" exactly when [now - t] is below 24 hours (also when the clock
    was set back); otherwise the stored session is removed and there is
    no user. *)
Theorem login_then_check (username password : jsstring) (t now : Z)
    (storageWritable : bool) (st : state) :
  let result := login username password t storageWritable st in
  (result.2 = true
   <-> username = lit "admin" /\ password = lit "iran@1404"
       /\ storageWritable = true)
  /\ (result.2 = false -> result.1 = st)
  /\ (result.2 = true ->
      let st' := checkAuthStatus now (mount (storage result.1)) in
      isAuthenticated result.1 = true
      /\ user result.1 = Some (lit "admin")
      /\ (isAuthenticated st' = true <-> now - t < 86400000)
      /\ (now - t < 86400000 ->
          user st' = Some (lit "admin")
          /\ storage st' = Some (Session true (lit "admin") t))
      /\ (86400000 <= now - t -> user st' = None /\ storage st' = None)
      /\ isLoading st' = false).
Proof.
  intros result. subst result. unfold login.
  change ADMIN_username with (lit "admin").
  change ADMIN_password with (lit "iran@1404").
  destruct (decide (username = lit "admin")) as [->|Hu].
  2:{ rewrite (bool_decide_eq_false_2 _ Hu). cbn [andb fst snd].
      split; [split; [discriminate | tauto]|].
      split; [reflexivity | discriminate]. }
  destruct (decide (password = lit "iran@1404")) as [->|Hp].
  2:{ rewrite (bool_decide_eq_false_2 _ Hp), andb_false_r. cbn [fst snd].
      split; [split; [discriminate | tauto]|].
      split; [reflexivity | discriminate]. }
  rewrite !bool_decide_eq_true_2 by reflexivity. cbn [andb].
  destruct storageWritable; cbn [fst snd storage].
  2:{ split; [split; [discriminate | intros (_ & _ & H); discriminate H]|].
      split; [reflexivity | discriminate]. }
  split; [tauto|]. split; [discriminate|]. intros _.
  unfold checkAuthStatus, mount. cbn [storage andb negb isAuthenticated user].
  rewrite (bool_decide_eq_false_2 (lit "admin" = [])) by discriminate.
  cbn [negb andb].
  change sessionDuration with 86400000.
  destruct (Z.ltb_spec (now - t) 86400000) as [Hlt|Hge];
    cbn [isAuthenticated user storage isLoading].
  - repeat split; try tauto; lia.
  - repeat split; try tauto; try discriminate; lia.
Qed.

Lemma login_then_check_witness :
  (login (lit "admin") (lit "iran@1404") 1000 true (mount None)).2 = true
  /\ isLoading
       (checkAuthStatus 2000
          (mount (storage (login (lit "admin") (lit "iran@1404") 1000 true
                             (mount None)).1))) = false.
Proof.
  split; [reflexivity|].
  apply (proj2 (proj2 (login_then_check (lit "admin") (lit "iran@1404") 1000
                         2000 true (mount None))) eq_refl).
Defined.

(** With the right credentials and a storage that refuses the write, the
    login fails and nobody is authenticated. *)
Example login_storage_refused :
  login (lit "admin") (lit "iran@1404") 1000 false (mount None)
  = (mount None, false).
Proof. reflexivity. Qed.

(** X15. The end of a session is final: after [logout], and after a check
    at mount that did not authenticate, every later check at mount is
    unauthenticated without a user, whatever the clock then shows. *)
Theorem session_end_is_final (items : option item) (st : state) (now now' : Z) :
  isAuthenticated (checkAuthStatus now' (mount (storage (logout st)))) = false
  /\ user (checkAuthStatus now' (mount (storage (logout st)))) = None
  /\ (isAuthenticated (checkAuthStatus now (mount items)) = false ->
      isAuthenticated
        (checkAuthStatus now'
           (mount (storage (checkAuthStatus now (mount items))))) = false
      /\ user
           (checkAuthStatus now'
              (mount (storage (checkAuthStatus now (mount items))))) = None).
Proof.
  split; [reflexivity|]. split; [reflexivity|].
  unfold checkAuthStatus, mount. cbn [storage].
  destruct items as [[|isAuth username timestamp|]|]; cbn; try tauto.
  destruct (isAuth && negb (bool_decide (username = []))
            && (now - timestamp <? sessionDuration)); cbn;
    [discriminate | tauto].
Qed.

Lemma session_end_is_final_witness :
  isAuthenticated (checkAuthStatus 90000000 (mount (Some (Session true (lit "admin") 0))))
  = false
  /\ isAuthenticated
       (checkAuthStatus 5
          (mount (storage (checkAuthStatus 90000000
                             (mount (Some (Session true (lit "admin") 0)))))))
     = false.
Proof.
  split; [reflexivity|].
  apply (proj2 (proj2 (session_end_is_final
                         (Some (Session true (lit "admin") 0)) (mount None)
                         90000000 5)) eq_refl).
Defined.
